(** * Orchestrator AI Agent Platform: the chat widget and the orchestration core

    The development has three parts.

    - [Js]: the fragment of the JavaScript value model that [App.jsx] relies
      on (JSON values, [undefined], truthiness, property reads, [trim]).
    - [Widget]: a shallow embedding of
      [frontend/ai-agent-frontend/src/App.jsx]: the component state, the
      event handlers ([sendMessage], [toggleSteps], [handleKeyPress]), the
      continuation of the [fetch] promise and the part of the render
      function that shows messages and their steps.
    - [Orchestrator]: the orchestration loop behind [POST /chat].  The
      repository contains no implementation of it, so that part is modelled
      from the specification. *)

From Stdlib Require Import ZArith String Ascii List Bool Lia.
From stdpp Require Import base option list gmap strings.
Import ListNotations.

Set Warnings "-register-all".
Local Open Scope Z_scope.
Local Open Scope string_scope.
Local Open Scope list_scope.

(* ===================================================================== *)
(** * JavaScript values                                                    *)
(* ===================================================================== *)

Module Js.

(** What [response.json()] can produce.  Numbers are kept to the integers:
    none of the operations below tells a non-integral number from a
    non-zero integer.  An object is its member list in source order; a
    repeated key is read as [JSON.parse] leaves it, last member first. *)
Inductive JSON : Type :=
| JNull
| JBool (b : bool)
| JNum (n : Z)
| JStr (s : string)
| JArr (items : list JSON)
| JObj (members : list (string * JSON)).

(** A JavaScript value as the widget sees it: a JSON value or [undefined]. *)
Inductive value : Type :=
| VUndefined
| VJson (j : JSON).

Definition undefined : value := VUndefined.
Definition str (s : string) : value := VJson (JStr s).
Definition num (n : Z) : value := VJson (JNum n).
Definition arr (l : list JSON) : value := VJson (JArr l).

(** ToBoolean. *)
Definition truthy (v : value) : bool :=
  match v with
  | VUndefined => false
  | VJson JNull => false
  | VJson (JBool b) => b
  | VJson (JNum n) => negb (n =? 0)%Z
  | VJson (JStr s) => negb (String.eqb s "")
  | VJson (JArr _) => true
  | VJson (JObj _) => true
  end.

(** [a || b]. *)
Definition js_or (a b : value) : value := if truthy a then a else b.

(** [v === 's'] for a string literal. *)
Definition strict_eq_str (v : value) (s : string) : bool :=
  match v with
  | VJson (JStr t) => String.eqb t s
  | _ => false
  end.

Definition is_array (v : value) : bool :=
  match v with
  | VJson (JArr _) => true
  | _ => false
  end.

Fixpoint lookup_member (k : string) (ms : list (string * JSON)) : option JSON :=
  match ms with
  | [] => None
  | (k', v) :: rest =>
      match lookup_member k rest with
      | Some later => Some later
      | None => if String.eqb k k' then Some v else None
      end
  end.

(** [j.k] for a [j] that is neither [null] nor [undefined], and for the keys
    the widget reads ([response], [steps], [tokens_used], [status],
    [action_type], [description], [output_data], [length]): an own member of
    an object, the length of a string or an array, and [undefined]
    otherwise. *)
Definition get (j : JSON) (k : string) : value :=
  match j with
  | JObj ms =>
      match lookup_member k ms with
      | Some v => VJson v
      | None => VUndefined
      end
  | JStr s => if String.eqb k "length" then num (Z.of_nat (String.length s)) else VUndefined
  | JArr l => if String.eqb k "length" then num (Z.of_nat (List.length l)) else VUndefined
  | _ => VUndefined
  end.

(** [v.k]; [None] is the [TypeError] raised on [null] and [undefined]. *)
Definition get_prop (v : value) (k : string) : option value :=
  match v with
  | VUndefined => None
  | VJson JNull => None
  | VJson j => Some (get j k)
  end.

(** Strings are sequences of code units below 256.  Among those the
    WhiteSpace and LineTerminator code points of ECMAScript, which
    [String.prototype.trim] strips, are 9 to 13, 32 and 160. *)
Definition is_white (c : ascii) : bool :=
  let n := nat_of_ascii c in
  ((9 <=? n)%nat && (n <=? 13)%nat) || (n =? 32)%nat || (n =? 160)%nat.

Fixpoint trim_start (s : string) : string :=
  match s with
  | EmptyString => EmptyString
  | String c rest => if is_white c then trim_start rest else s
  end.

Fixpoint trim_end (s : string) : string :=
  match s with
  | EmptyString => EmptyString
  | String c rest =>
      match trim_end rest with
      | EmptyString => if is_white c then EmptyString else String c EmptyString
      | kept => String c kept
      end
  end.

Definition trim (s : string) : string := trim_end (trim_start s).

(** What React accepts where the JSX hands it a value as a child: a string
    or a number is drawn, [null] and a boolean draw nothing, an array is
    drawn entry by entry, and a plain object makes React throw (Objects are
    not valid as a React child), which takes the widget down. *)
Fixpoint valid_child (j : JSON) : bool :=
  match j with
  | JObj _ => false
  | JArr items => forallb valid_child items
  | _ => true
  end.

(** The same for a value that may be [undefined], which draws nothing. *)
Definition child_ok (v : value) : bool :=
  match v with
  | VUndefined => true
  | VJson j => valid_child j
  end.

(** The operand that an [&&] chain in JSX hands to React: the element when
    every guard is truthy, and the first falsy guard itself otherwise. *)
Inductive guarded (A : Type) : Type :=
| Shown (a : A)
| Hidden (v : value).
Arguments Shown {A} a.
Arguments Hidden {A} v.

Definition is_shown {A} (g : guarded A) : bool :=
  match g with
  | Shown _ => true
  | Hidden _ => false
  end.

End Js.

(* ===================================================================== *)
(** * The chat widget ([App.jsx])                                          *)
(* ===================================================================== *)

Module Widget.
Import Js.

(** ** Component state *)

(** An entry of the [messages] state.  [tokensUsed] and [status] are
    [undefined] on the messages that do not set them; [isError] is [false]
    on the messages that do not set it. *)
Record Message : Type := {
  id : Z;
  role : string;
  content : value;
  timestamp : Z;
  steps : value;
  tokensUsed : value;
  status : value;
  isError : bool
}.

Record AppState : Type := {
  messages : list Message;
  inputMessage : string;
  isLoading : bool;
  showSteps : gmap Z bool
}.

Definition greeting : string :=
  "Hello! I'm your AI agent. I can help you with various tasks including web search, document analysis, and more. How can I assist you today?".

(** The [useState] initialisers; [t0] is the [new Date()] of the first
    render. *)
Definition initial_state (t0 : Z) : AppState := {|
  messages := [ {| id := 1; role := "assistant"; content := str greeting;
                   timestamp := t0; steps := arr [];
                   tokensUsed := undefined; status := undefined;
                   isError := false |} ];
  inputMessage := "";
  isLoading := false;
  showSteps := ∅
|}.

(** ** The request *)

Record Request : Type := {
  url : string;
  method : string;
  headers : list (string * string);
  body : JSON
}.

(** A member of an object literal as [JSON.stringify] writes it: a member
    whose value is [undefined] is left out. *)
Definition member (k : string) (v : value) : list (string * JSON) :=
  match v with
  | VUndefined => []
  | VJson j => [(k, j)]
  end.

(** [msg => ({ role: msg.role, content: msg.content })], serialised. *)
Definition wire_message (msg : Message) : JSON :=
  JObj (member "role" (str (role msg)) ++ member "content" (content msg)).

(** The JSON document that
    [JSON.stringify({ messages: msgs.map(...) })] denotes. *)
Definition request_body (msgs : list Message) : JSON :=
  JObj [("messages", JArr (map wire_message msgs))].

(** ** What the [fetch] promise settles to *)

Inductive Body : Type :=
| Parsed (data : JSON)             (* [response.json()] resolves *)
| Unparseable (message : string).  (* [response.json()] rejects   *)

Inductive Outcome : Type :=
| Rejected (message : string)      (* [fetch] rejects with an [Error] *)
| Responded (http_status : Z) (b : Body).

(** [response.ok]. *)
Definition response_ok (http_status : Z) : bool :=
  ((200 <=? http_status) && (http_status <=? 299))%Z.

Section App.

(** The message of the [TypeError] that the engine raises when a member of
    [null] is read; it is engine specific. *)
Variable null_read_message : string -> string.

(** [ToNumber(j) > 0] for a string, an array or an object, a coercion that
    the widget can only meet on a malformed [length]. *)
Variable coerced_positive : JSON -> bool.

(** [v > 0]. *)
Definition gt0 (v : value) : bool :=
  match v with
  | VUndefined => false
  | VJson JNull => false
  | VJson (JBool b) => b
  | VJson (JNum n) => (0 <? n)%Z
  | VJson j => coerced_positive j
  end.

(** ** [sendMessage] *)

Definition userMessage (st : AppState) (now ts : Z) : Message := {|
  id := now; role := "user"; content := str (inputMessage st);
  timestamp := ts; steps := arr [];
  tokensUsed := undefined; status := undefined; isError := false
|}.

(** The guard of line 36: [!inputMessage.trim() || isLoading]. *)
Definition send_blocked (st : AppState) : bool :=
  negb (truthy (str (trim (inputMessage st)))) || isLoading st.

(** [sendMessage] up to its first [await]: the new state and the request
    handed to [fetch], if any.  [now] is [Date.now()], [ts] is
    [new Date()]. *)
Definition sendMessage (st : AppState) (now ts : Z) : AppState * option Request :=
  if send_blocked st then (st, None)
  else
    let um := userMessage st now ts in
    ({| messages := messages st ++ [um];
        inputMessage := "";
        isLoading := true;
        showSteps := showSteps st |},
     Some {| url := "http://localhost:8000/chat";
             method := "POST";
             headers := [("Content-Type", "application/json")];
             body := request_body (messages st ++ [um]) |}).

Definition append_message (st : AppState) (m : Message) : AppState := {|
  messages := messages st ++ [m];
  inputMessage := inputMessage st;
  isLoading := isLoading st;
  showSteps := showSteps st
|}.

Definition assistantMessage (data : JSON) (now ts : Z) : Message := {|
  id := now + 1; role := "assistant"; content := get data "response";
  timestamp := ts; steps := js_or (get data "steps") (arr []);
  tokensUsed := get data "tokens_used"; status := get data "status";
  isError := false
|}.

Definition errorMessage (message : string) (now ts : Z) : Message := {|
  id := now + 1; role := "assistant";
  content := str ("Sorry, I encountered an error: " +:+ message);
  timestamp := ts; steps := arr [];
  tokensUsed := undefined; status := undefined; isError := true
|}.

(** The [try] block after the [await]: [inl data] when it runs to its end,
    [inr message] when it throws an error with that message. *)
Definition try_block (o : Outcome) : JSON + string :=
  match o with
  | Rejected message => inr message
  | Responded http_status b =>
      if negb (response_ok http_status) then inr "Failed to get response"
      else
        match b with
        | Unparseable message => inr message
        | Parsed JNull => inr (null_read_message "response")
        | Parsed data => inl data
        end
  end.

(** [sendMessage] from the settling of [fetch] on: [try], [catch],
    [finally]. *)
Definition sendMessage_resume (st : AppState) (o : Outcome) (now ts : Z) : AppState :=
  let st1 :=
    match try_block o with
    | inl data => append_message st (assistantMessage data now ts)
    | inr message => append_message st (errorMessage message now ts)
    end in
  {| messages := messages st1;
     inputMessage := inputMessage st1;
     isLoading := false;
     showSteps := showSteps st1 |}.

(** [toggleSteps]: [{ ...prev, [messageId]: !prev[messageId] }]. *)
Definition toggleSteps (st : AppState) (messageId : Z) : AppState := {|
  messages := messages st;
  inputMessage := inputMessage st;
  isLoading := isLoading st;
  showSteps :=
    <[ messageId := negb (default false (showSteps st !! messageId)) ]> (showSteps st)
|}.

Definition setInputMessage (st : AppState) (s : string) : AppState := {|
  messages := messages st;
  inputMessage := s;
  isLoading := isLoading st;
  showSteps := showSteps st
|}.

(** [handleKeyPress]: Enter without Shift sends. *)
Definition handleKeyPress (st : AppState) (key : string) (shiftKey : bool)
    (now ts : Z) : AppState * option Request :=
  if String.eqb key "Enter" && negb shiftKey then sendMessage st now ts
  else (st, None).

(** ** Rendering *)

Inductive Icon : Type := Settings | Search | Bot | FileText | Send | User | Loader2.

Definition getStepIcon (actionType : value) : Icon :=
  if strict_eq_str actionType "plan" then Settings
  else if strict_eq_str actionType "retrieve" then Search
  else if strict_eq_str actionType "act" then Bot
  else if strict_eq_str actionType "verify" then FileText
  else if strict_eq_str actionType "respond" then Send
  else Bot.

Definition getStepColor (status : value) : string :=
  if strict_eq_str status "completed" then "bg-green-100 text-green-800 border-green-200"
  else if strict_eq_str status "running" then "bg-blue-100 text-blue-800 border-blue-200"
  else if strict_eq_str status "failed" then "bg-red-100 text-red-800 border-red-200"
  else "bg-gray-100 text-gray-800 border-gray-200".

(** One card of the steps panel (lines 203-220).  The fields hold the
    values that the JSX hands to React; [sv_details] is the argument of
    [JSON.stringify(step.output_data, null, 2)]. *)
Record StepView : Type := {
  sv_icon : Icon;
  sv_label : value;
  sv_badge_class : string;
  sv_badge : value;
  sv_description : value;
  sv_details : guarded JSON
}.

(** [step.output_data && (<details>...</details>)]. *)
Definition details_view (output_data : value) : guarded JSON :=
  match output_data with
  | VJson j => if truthy output_data then Shown j else Hidden output_data
  | VUndefined => Hidden VUndefined
  end.

(** The card that the callback of [message.steps.map] builds for an entry
    whose members can be read. *)
Definition step_card (step : JSON) : StepView := {|
  sv_icon := getStepIcon (get step "action_type");
  sv_label := get step "action_type";
  sv_badge_class := "text-xs " +:+ getStepColor (get step "status");
  sv_badge := get step "status";
  sv_description := get step "description";
  sv_details := details_view (get step "output_data")
|}.

(** The values of an entry that the card hands to React as children
    (lines 206, 208 and 211) can all be drawn. *)
Definition entry_draws (step : JSON) : bool :=
  child_ok (get step "action_type") && child_ok (get step "status") &&
  child_ok (get step "description").

(** The callback of [message.steps.map]; [None] when reading a member of
    the entry throws, which it does on [null], and when React throws on one
    of the entry's values. *)
Definition step_view (step : JSON) : option StepView :=
  match step with
  | JNull => None
  | _ => if entry_draws step then Some (step_card step) else None
  end.

(** An entry that the callback can draw: it is not [null], and its
    [action_type], [status] and [description] are values that React
    accepts as children, as strings are. *)
Definition sound_entry (step : JSON) : Prop :=
  step <> JNull /\
  child_ok (get step "action_type") = true /\
  child_ok (get step "status") = true /\
  child_ok (get step "description") = true.

(** [message.steps.map(...)]: only an array has a [map] to call. *)
Definition steps_view (steps : value) : option (list StepView) :=
  match steps with
  | VJson (JArr entries) => mapM step_view entries
  | _ => None
  end.

(** [message.steps && message.steps.length > 0], with the operand that the
    chain yields when it stops early. *)
Definition has_steps (steps : value) : value + unit :=
  match steps with
  | VJson j =>
      if truthy steps then
        if gt0 (get j "length") then inr tt else inl (VJson (JBool false))
      else inl steps
  | VUndefined => inl VUndefined
  end.

Inductive Bubble : Type := UserBubble | ErrorBubble | NormalBubble.

Record MessageView : Type := {
  mv_key : Z;
  mv_right : bool;
  mv_bubble : Bubble;
  mv_avatar : Icon;
  mv_content : value;
  mv_time : Z;
  mv_tokens : guarded value;
  mv_toggle : guarded (string * value);
  mv_panel : guarded (list StepView)
}.

Definition bubble (m : Message) : Bubble :=
  if String.eqb (role m) "user" then UserBubble
  else if isError m then ErrorBubble
  else NormalBubble.

(** Lines 185-194: the Show/Hide button with the step count. *)
Definition toggle_view (shown : gmap Z bool) (m : Message) : guarded (string * value) :=
  match has_steps (steps m) with
  | inl falsy => Hidden falsy
  | inr _ =>
      Shown (if default false (shown !! id m) then "Hide" else "Show",
             default VUndefined (get_prop (steps m) "length"))
  end.

(** Lines 200-223: the steps panel; [None] when rendering it throws. *)
Definition panel_view (shown : gmap Z bool) (m : Message) : option (guarded (list StepView)) :=
  match shown !! id m with
  | None => Some (Hidden VUndefined)
  | Some false => Some (Hidden (VJson (JBool false)))
  | Some true =>
      match has_steps (steps m) with
      | inl falsy => Some (Hidden falsy)
      | inr _ => Shown <$> steps_view (steps m)
      end
  end.

(** The values of a message that the bubble hands to React as children
    can all be drawn: the content (line 173), the token count, inside the
    badge or as the falsy operand in its place (lines 180-184), and the
    step count on the button (line 192). *)
Definition children_draw (shown : gmap Z bool) (m : Message) : bool :=
  child_ok (content m) && child_ok (tokensUsed m) &&
  match toggle_view shown m with
  | Shown (_, count) => child_ok count
  | Hidden _ => true
  end.

(** One iteration of [messages.map] (lines 151-226); [None] when React
    throws on one of the message's values or the steps panel throws. *)
Definition message_view (shown : gmap Z bool) (m : Message) : option MessageView :=
  if children_draw shown m then
    panel ← panel_view shown m;
    Some {| mv_key := id m;
            mv_right := String.eqb (role m) "user";
            mv_bubble := bubble m;
            mv_avatar := if String.eqb (role m) "user" then User else Bot;
            mv_content := content m;
            mv_time := timestamp m;
            mv_tokens := if truthy (tokensUsed m) then Shown (tokensUsed m)
                         else Hidden (tokensUsed m);
            mv_toggle := toggle_view shown m;
            mv_panel := panel |}
  else None.

Record AppView : Type := {
  av_messages : list MessageView;
  av_thinking : bool;
  av_input_value : string;
  av_input_disabled : bool;
  av_send_disabled : bool
}.

(** The render function; [None] when it throws. *)
Definition render (st : AppState) : option AppView :=
  views ← mapM (message_view (showSteps st)) (messages st);
  Some {| av_messages := views;
          av_thinking := isLoading st;
          av_input_value := inputMessage st;
          av_input_disabled := isLoading st;
          av_send_disabled :=
            isLoading st || negb (truthy (str (trim (inputMessage st)))) |}.

(** ** The widget and its environment *)

(** React re-renders between two events, so a handler runs with the
    closures of the latest render: the [messages], [inputMessage] and
    [isLoading] it reads are the current state. *)

(** The component state together with the requests that [fetch] has been
    given: those not settled yet, oldest first, and all of them, in the
    order they were made. *)
Record World : Type := {
  app : AppState;
  inflight : list Request;
  sent : list Request
}.

Inductive Event : Type :=
| EvChange (text : string)                               (* [onChange]  *)
| EvClick (now ts : Z)                                   (* [onClick]   *)
| EvKeyPress (key : string) (shiftKey : bool) (now ts : Z)
| EvToggle (messageId : Z)
| EvSettle (o : Outcome) (now ts : Z).                   (* oldest [fetch] settles *)

Definition issue (w : World) (r : AppState * option Request) : World :=
  match r with
  | (st, Some req) =>
      {| app := st; inflight := inflight w ++ [req]; sent := sent w ++ [req] |}
  | (st, None) => {| app := st; inflight := inflight w; sent := sent w |}
  end.

Definition react (w : World) (e : Event) : World :=
  match e with
  | EvChange text =>
      {| app := setInputMessage (app w) text; inflight := inflight w; sent := sent w |}
  | EvClick now ts => issue w (sendMessage (app w) now ts)
  | EvKeyPress key shiftKey now ts => issue w (handleKeyPress (app w) key shiftKey now ts)
  | EvToggle messageId =>
      {| app := toggleSteps (app w) messageId; inflight := inflight w; sent := sent w |}
  | EvSettle o now ts =>
      match inflight w with
      | [] => w
      | _ :: rest =>
          {| app := sendMessage_resume (app w) o now ts; inflight := rest; sent := sent w |}
      end
  end.

Definition start (t0 : Z) : World :=
  {| app := initial_state t0; inflight := []; sent := [] |}.

Definition run (t0 : Z) (events : list Event) : World :=
  fold_left react events (start t0).

End App.

(** The [TypeError] message of V8 for a read on [null], and an engine on
    which no malformed [length] counts as positive: the instances at which
    the closed examples below are evaluated. *)
Definition v8_null_read (k : string) : string :=
  "Cannot read properties of null (reading '" +:+ k +:+ "')".

Definition never_positive (j : JSON) : bool := false.

(** A response in the shape of scenario A: two steps and the reply. *)
Definition two_steps : list JSON :=
  [JObj [("action_type", JStr "plan"); ("status", JStr "completed");
         ("description", JStr "answer directly")];
   JObj [("action_type", JStr "respond"); ("status", JStr "completed");
         ("description", JStr "reply");
         ("output_data", JObj [("text", JStr "4")])]].

Definition four : JSON :=
  JObj [("response", JStr "4"); ("steps", JArr two_steps);
        ("status", JStr "completed")].

Section Invariants.

(** ** Invariants of the reachable worlds *)

(** A message with role [user] carries the text that was typed, and that
    text is not blank. *)
Definition typed_by_user (m : Message) : Prop :=
  role m = "user" -> exists text, content m = str text /\ trim text <> "".

Definition known_role (m : Message) : Prop :=
  role m = "user" \/ role m = "assistant".

Definition stored_ok (m : Message) : Prop :=
  typed_by_user m /\ known_role m /\ truthy (steps m) = true.

(** The request carries the serialised form of a list of stored
    messages. *)
Definition carries (req : Request) (msgs : list Message) : Prop :=
  body req = request_body msgs /\ msgs <> [] /\ Forall stored_ok msgs.

Record consistent (w : World) : Prop := {
  one_flight : length (inflight w) = if isLoading (app w) then 1%nat else 0%nat;
  stored : Forall stored_ok (messages (app w));
  posted : Forall (fun req => exists msgs, carries req msgs) (sent w)
}.

(** The [fetch] settles without a usable response: it rejects, or the
    response is not [ok]. *)
Definition fetch_failed (o : Outcome) : bool :=
  match o with
  | Rejected _ => true
  | Responded http_status _ => negb (response_ok http_status)
  end.

(** The body of an [ok] response cannot be used: it does not parse, or it
    is [null]. *)
Definition body_unusable (o : Outcome) : bool :=
  match o with
  | Responded http_status (Unparseable _) => response_ok http_status
  | Responded http_status (Parsed JNull) => response_ok http_status
  | _ => false
  end.

(** An element of the [messages] array with exactly the members [role] and
    [content], in that order, the role being one of the enumeration. *)
Definition role_and_content (element : JSON) : bool :=
  match element with
  | JObj [(k1, JStr r); (k2, _)] =>
      String.eqb k1 "role" && String.eqb k2 "content" &&
      (String.eqb r "user" || String.eqb r "assistant" || String.eqb r "system")
  | _ => false
  end.

(** The elements of the [messages] array of a request body. *)
Definition posted_messages (req : Request) : list JSON :=
  match get (body req) "messages" with
  | VJson (JArr elements) => elements
  | _ => []
  end.

End Invariants.

Section Conversation.

(** ** Further notions for the reachable worlds *)

(** The [Date.now()] that an event reads, if it can read one. *)
Definition event_now (e : Event) : option Z :=
  match e with
  | EvClick now _ => Some now
  | EvKeyPress _ _ now _ => Some now
  | EvSettle _ now _ => Some now
  | EvChange _ => None
  | EvToggle _ => None
  end.

(** Every clock reading is more than one millisecond past the one before
    it, the first one being past [lo]. *)
Fixpoint spaced (lo : Z) (events : list Event) : Prop :=
  match events with
  | [] => True
  | e :: rest =>
      match event_now e with
      | Some now => (lo < now)%Z /\ spaced (now + 1) rest
      | None => spaced lo rest
      end
  end.

(** The roles of a conversation with [answered] exchanges behind it, and a
    question waiting for its answer when [waiting]. *)
Fixpoint exchanges (answered : nat) : list string :=
  match answered with
  | O => []
  | Datatypes.S n => "user" :: "assistant" :: exchanges n
  end.

Definition conversation (answered : nat) (waiting : bool) : list string :=
  "assistant" :: exchanges answered ++ (if waiting then ["user"] else []).

(** A message that the widget made up itself, the typed one or the error
    bubble, carries a string as content and no steps, no token count and no
    status; and only an assistant message is an error. *)
Definition bare (m : Message) : Prop :=
  (isError m = true -> role m = "assistant") /\
  (role m = "user" \/ isError m = true ->
   steps m = arr [] /\ tokensUsed m = undefined /\ status m = undefined /\
   exists text, content m = str text).

(** The first message of every conversation. *)
Definition first_message (t0 : Z) : Message := {|
  id := 1; role := "assistant"; content := str greeting;
  timestamp := t0; steps := arr [];
  tokensUsed := undefined; status := undefined; isError := false
|}.

End Conversation.
End Widget.

(* ===================================================================== *)
(** * The orchestration core behind [POST /chat]                           *)
(* ===================================================================== *)

Module Orchestrator.
Import Js.

(** Modelled from the spec: the action types of a Step (section 3); the
    repository has no orchestrator source. *)
Inductive ActionType : Type := plan | retrieve | act | verify | respond.

Module StepStatus.
(** Modelled from the spec: the statuses of a Step (section 3). *)
Inductive t : Type := pending | running | completed | failed | skipped.
End StepStatus.

Module SessionStatus.
(** Modelled from the spec: the terminal statuses of a Session
    (section 3). *)
Inductive t : Type := completed | halted | failed.
End SessionStatus.

(** Modelled from the spec: the error kinds a Step can carry (section 7);
    [planning_failed] and [non_progress] belong to the Session and appear
    as halt reasons. *)
Inductive ErrorKind : Type :=
| schema_invalid
| guardrail_denied
| collaborator_timeout
| transient_io.

(** Modelled from the spec: the result of a guardrail check (section 3). *)
Inductive GuardrailVerdict : Type :=
| allow
| deny (reason : string)
| modify (replacement_output : JSON).

(** Modelled from the spec: the Step record (section 3).  Payloads are JSON
    values. *)
Record Step : Type := {
  index : nat;
  action_type : ActionType;
  status : StepStatus.t;
  description : string;
  input : JSON;
  output_data : option JSON;
  attempt_count : nat;
  error : option ErrorKind
}.

(** Modelled from the spec: the Planner's answer (section 3): the next step
    or the terminal marker. *)
Inductive Plan : Type :=
| Propose (a : ActionType) (description : string) (input : JSON)
| Done.

(** Modelled from the spec: the Session record (section 3); [status] is
    [None] until the loop stops.  The cumulative token counter is left out:
    no rule of the loop reads or bounds it. *)
Record Session : Type := {
  session_id : nat;
  messages : list (string * string);
  steps : list Step;
  status_of : option SessionStatus.t;
  halt_reason : option string
}.

(** Modelled from the spec: the read-only configuration (sections 5
    and 9). *)
Record Config : Type := {
  step_ceiling : nat;
  retry_ceiling : nat;
  time_budget : nat
}.

(** Modelled from the spec: the declared schemas (section 4.3) and the
    comparison of the non-progress guard, which section 9 leaves to the
    implementation. *)
Record Schemas : Type := {
  input_ok : ActionType -> JSON -> bool;
  output_ok : ActionType -> list Step -> JSON -> bool;
  same_input : JSON -> JSON -> bool
}.

(** Modelled from the spec: the collaborator contracts of section 6 and the
    handlers of [verify] and [respond], which section 4.2 describes by
    their results only, over a state [W] of the outside world that every
    call may read and change, so that a collaborator can answer the same
    request differently each time.  A failing call reports its error
    kind. *)
Record Collaborators (W : Type) : Type := {
  planner_next_step : W -> list (string * string) -> list Step -> option Plan * W;
  retriever_query : W -> JSON -> (JSON + ErrorKind) * W;
  tool_invoker_call : W -> JSON -> (JSON + ErrorKind) * W;
  verifier_check : W -> JSON -> list Step -> (bool + ErrorKind) * W;
  responder_format : W -> JSON -> list Step -> (JSON + ErrorKind) * W;
  guardrail_policy_evaluate : W -> JSON -> list Step -> GuardrailVerdict * W;
  clock_now : W -> nat;
  cancel_requested : W -> bool
}.
Arguments planner_next_step {W}.
Arguments retriever_query {W}.
Arguments tool_invoker_call {W}.
Arguments verifier_check {W}.
Arguments responder_format {W}.
Arguments guardrail_policy_evaluate {W}.
Arguments clock_now {W}.
Arguments cancel_requested {W}.

(** Modelled from the spec: the state of one run of the loop (section 4.1):
    the Session, the outside world, the Step being executed, if any, and
    the time the Session started. *)
Record Run (W : Type) : Type := {
  session : Session;
  world : W;
  current : option Step;
  started : nat
}.
Arguments session {W}.
Arguments world {W}.
Arguments current {W}.
Arguments started {W}.

Section Core.
Context {W : Type}.
Variable C : Collaborators W.
Variable S : Schemas.
Variable cfg : Config.

(** Modelled from the spec: the [allow]/[deny] verdict that a [verify] Step
    stores as its output (section 4.2). *)
Definition verdict_output (allowed : bool) : JSON :=
  JObj [("verdict", JStr (if allowed then "allow" else "deny"))].

(** Modelled from the spec: the handler dispatch of the Step Executor
    (section 4.2), one case per action type. *)
Definition dispatch (w : W) (trace : list Step) (s : Step) : (JSON + ErrorKind) * W :=
  match action_type s with
  | plan => (inl (input s), w)
  | retrieve => retriever_query C w (input s)
  | act => tool_invoker_call C w (input s)
  | verify =>
      match verifier_check C w (input s) trace with
      | (inl allowed, w') => (inl (verdict_output allowed), w')
      | (inr k, w') => (inr k, w')
      end
  | respond => responder_format C w (input s) trace
  end.

(** Modelled from the spec: the Guardrail Gate is invoked on [act] and
    [respond] outputs only (section 4.6). *)
Definition gated (a : ActionType) : bool :=
  match a with
  | act | respond => true
  | _ => false
  end.

(** Modelled from the spec: the two outcomes of an attempt (section 4.2):
    [completed] with an output, or [failed] with an error. *)
Definition mark_completed (s : Step) (out : JSON) : Step := {|
  index := index s; action_type := action_type s;
  status := StepStatus.completed; description := description s;
  input := input s; output_data := Some out;
  attempt_count := attempt_count s; error := None
|}.

Definition mark_failed (s : Step) (k : ErrorKind) : Step := {|
  index := index s; action_type := action_type s;
  status := StepStatus.failed; description := description s;
  input := input s; output_data := None;
  attempt_count := attempt_count s; error := Some k
|}.

(** Modelled from the spec: the Guardrail Gate applied to a candidate
    output (section 4.6): [allow] commits it, [modify] commits the
    replacement, [deny] fails the Step. *)
Definition gate (w : W) (trace : list Step) (s : Step) (out : JSON) : Step * W :=
  match guardrail_policy_evaluate C w out trace with
  | (allow, w') => (mark_completed s out, w')
  | (modify replacement, w') => (mark_completed s replacement, w')
  | (deny _, w') => (mark_failed s guardrail_denied, w')
  end.

(** Modelled from the spec: one attempt of the Step Executor
    (sections 4.2, 4.3 and 4.6): validate the input, dispatch, validate the
    output, and pass [act] and [respond] outputs through the gate. *)
Definition Execute (w : W) (trace : list Step) (s : Step) : Step * W :=
  if negb (input_ok S (action_type s) (input s)) then (mark_failed s schema_invalid, w)
  else
    match dispatch w trace s with
    | (inr k, w1) => (mark_failed s k, w1)
    | (inl out, w1) =>
        if negb (output_ok S (action_type s) trace out) then (mark_failed s schema_invalid, w1)
        else if gated (action_type s) then gate w1 trace s out
        else (mark_completed s out, w1)
    end.

(** Modelled from the spec: the error kinds that the default policy
    retries (section 4.4). *)
Definition retryable (k : ErrorKind) : bool :=
  match k with
  | collaborator_timeout | transient_io => true
  | schema_invalid | guardrail_denied => false
  end.

(** Modelled from the spec: the Retry Policy (section 4.4); [true] is
    [retry], [false] is [give_up]. *)
Definition ShouldRetry (s : Step) (attempts : nat) (k : ErrorKind) : bool :=
  retryable k && (attempts <? retry_ceiling cfg)%nat.

Definition step_failed (s : Step) : bool :=
  match status s with
  | StepStatus.failed => true
  | _ => false
  end.

Definition step_completed (s : Step) : bool :=
  match status s with
  | StepStatus.completed => true
  | _ => false
  end.

Definition is_respond (a : ActionType) : bool :=
  match a with
  | respond => true
  | _ => false
  end.

Definition is_verify (a : ActionType) : bool :=
  match a with
  | verify => true
  | _ => false
  end.

Definition action_eqb (a b : ActionType) : bool :=
  match a, b with
  | plan, plan | retrieve, retrieve | act, act | verify, verify | respond, respond => true
  | _, _ => false
  end.

(** Modelled from the spec: a completed [verify] Step whose verdict is
    [deny] (section 4.5). *)
Definition verify_denies (s : Step) : bool :=
  is_verify (action_type s) && step_completed s &&
  match output_data s with
  | Some out => strict_eq_str (get out "verdict") "deny"
  | None => false
  end.

(** Modelled from the spec: the halt reason for a failed Step that is not
    retried; it names the denial or the schema failure (scenario C), and
    the exhausted retry budget otherwise. *)
Definition failure_reason (k : ErrorKind) : string :=
  match k with
  | schema_invalid => "schema_invalid"
  | guardrail_denied => "guardrail_denied"
  | collaborator_timeout | transient_io => "retry_exhausted"
  end.

(** Modelled from the spec: the Halting Controller (section 4.5), consulted
    after a Step has been appended; [None] is [continue].  A failed Step
    that is not retried has no retry budget left, a [verify] Step that
    denies halts, then the time budget and the step ceiling are checked. *)
Definition ShouldHalt (trace : list Step) (elapsed : nat) : option string :=
  match last trace with
  | Some s =>
      if step_failed s then
        Some (match error s with Some k => failure_reason k | None => "retry_exhausted" end)
      else if verify_denies s then Some "verify_denied"
      else if (time_budget cfg <? elapsed)%nat then Some "time_budget"
      else if (step_ceiling cfg <=? length trace)%nat then Some "step_ceiling"
      else None
  | None => None
  end.

(** Modelled from the spec: the requirement on [Done] (section 4.1): the
    last Step is a successful [respond]. *)
Definition ends_with_respond (trace : list Step) : bool :=
  match last trace with
  | Some s => is_respond (action_type s) && step_completed s
  | None => false
  end.

(** Modelled from the spec: the non-progress guard (section 4.5): the
    proposal repeats the immediately preceding failed Step. *)
Definition non_progress (trace : list Step) (a : ActionType) (i : JSON) : bool :=
  match last trace with
  | Some p => step_failed p && action_eqb (action_type p) a && same_input S (input p) i
  | None => false
  end.

(** Modelled from the spec: the Step constructed from a Plan (sections 3
    and 4.1): the next index, no attempt made yet. *)
Definition new_step (trace : list Step) (a : ActionType) (d : string) (i : JSON) : Step := {|
  index := length trace; action_type := a; status := StepStatus.pending;
  description := d; input := i; output_data := None;
  attempt_count := 0; error := None
|}.

(** Modelled from the spec: a retry keeps the Step, its index and its
    input, and increments [attempt_count] (section 4.4). *)
Definition retried (s : Step) : Step := {|
  index := index s; action_type := action_type s; status := status s;
  description := description s; input := input s;
  output_data := output_data s;
  attempt_count := Datatypes.S (attempt_count s); error := error s
|}.

(** Modelled from the spec: the loop stops and sets the terminal status
    (section 4.1). *)
Definition finish (r : Run W) (w : W) (st : SessionStatus.t) (why : option string) : Run W := {|
  session := {| session_id := session_id (session r);
                messages := messages (session r);
                steps := steps (session r);
                status_of := Some st;
                halt_reason := why |};
  world := w;
  current := None;
  started := started r
|}.

Definition with_current (r : Run W) (w : W) (s : Step) : Run W := {|
  session := session r; world := w; current := Some s; started := started r
|}.

(** Modelled from the spec: append the executed Step to the trace, then
    consult the Halting Controller (section 4.1). *)
Definition commit (r : Run W) (w : W) (s : Step) : Run W :=
  let trace := (steps (session r) ++ [s])%list in
  let halt := ShouldHalt trace (clock_now C w - started r) in
  {| session := {| session_id := session_id (session r);
                   messages := messages (session r);
                   steps := trace;
                   status_of := match halt with
                                | Some _ => Some SessionStatus.halted
                                | None => None
                                end;
                   halt_reason := halt |};
     world := w;
     current := None;
     started := started r |}.

(** Modelled from the spec: one transition of the Orchestration Loop
    (sections 4.1, 4.4 and 5).  Between Steps the loop checks the
    cancellation signal and asks the Planner; with a Step at hand it runs
    one attempt, and either retries it or appends it to the trace and
    consults the Halting Controller.  A terminated run does not move. *)
Definition loop_step (r : Run W) : Run W :=
  match status_of (session r) with
  | Some _ => r
  | None =>
      match current r with
      | None =>
          if cancel_requested C (world r) then
            finish r (world r) SessionStatus.halted (Some "cancelled")
          else
            match planner_next_step C (world r) (messages (session r)) (steps (session r)) with
            | (None, w) => finish r w SessionStatus.failed (Some "planning_failed")
            | (Some Done, w) =>
                if ends_with_respond (steps (session r))
                then finish r w SessionStatus.completed None
                else finish r w SessionStatus.failed None
            | (Some (Propose a d i), w) =>
                if non_progress (steps (session r)) a i
                then finish r w SessionStatus.halted (Some "non_progress")
                else with_current r w (new_step (steps (session r)) a d i)
            end
      | Some s =>
          match Execute (world r) (steps (session r)) s with
          | (s', w) =>
              match error s' with
              | Some k =>
                  if step_failed s' && ShouldRetry s' (attempt_count s') k
                  then with_current r w (retried s)
                  else commit r w s'
              | None => commit r w s'
              end
          end
      end
  end.

(** Modelled from the spec: the Session that [Run] initialises
    (section 4.1). *)
Definition open_session (sid : nat) (history : list (string * string)) (w : W) : Run W := {|
  session := {| session_id := sid; messages := history; steps := [];
                status_of := None; halt_reason := None |};
  world := w;
  current := None;
  started := clock_now C w
|}.

(** [n] transitions of the loop. *)
Fixpoint iterate (n : nat) (r : Run W) : Run W :=
  match n with
  | O => r
  | Datatypes.S k => iterate k (loop_step r)
  end.

(** The Steps a run holds at a point: the trace and the Step at hand. *)
Definition all_steps (r : Run W) : list Step :=
  (steps (session r) ++ match current r with Some s => [s] | None => [] end)%list.

(** ** Predicates on runs *)

Definition terminated (r : Run W) : Prop :=
  status_of (session r) <> None /\ current r = None.

Definition attempts_bounded (r : Run W) : Prop :=
  Forall (fun s => (attempt_count s <= retry_ceiling cfg)%nat) (all_steps r).

(** What the gate's verdict on a candidate output lets a Step commit. *)
Definition accepted_by (v : GuardrailVerdict) (candidate : JSON) (committed : option JSON) : Prop :=
  match v with
  | allow => committed = Some candidate
  | modify replacement => committed = Some replacement
  | deny _ => False
  end.

(** The Step's output is one that the gate let through: the policy was
    evaluated on a candidate and answered [allow], and the candidate is the
    output, or answered [modify], and the replacement is the output. *)
Definition gate_accepted (s : Step) : Prop :=
  exists w trace candidate,
    accepted_by (fst (guardrail_policy_evaluate C w candidate trace)) candidate (output_data s).

Definition gate_respected (r : Run W) : Prop :=
  Forall (fun s => gated (action_type s) = true -> step_completed s = true -> gate_accepted s)
         (all_steps r).

(** The number of transitions a run can still make. *)
Definition fuel_left (r : Run W) : nat :=
  match status_of (session r) with
  | Some _ => 0
  | None =>
      (step_ceiling cfg - length (steps (session r))) * (retry_ceiling cfg + 2)
      - match current r with
        | Some s => 1 + attempt_count s
        | None => 0
        end
  end.

(** A run that has not terminated has room for the Step at hand. *)
Definition in_bounds (r : Run W) : Prop :=
  (current r <> None -> status_of (session r) = None) /\
  (status_of (session r) = None -> (length (steps (session r)) < step_ceiling cfg)%nat) /\
  (length (steps (session r)) <= step_ceiling cfg)%nat /\
  attempts_bounded r.

(** The Planner always proposes a Step. *)
Definition always_proposes : Prop :=
  forall w history trace,
    exists a d i w', planner_next_step C w history trace = (Some (Propose a d i), w').

(** Every attempt succeeds, no [verify] Step denies, nobody cancels and the
    clock stays within the budget. *)
Definition untroubled : Prop :=
  (forall w trace s,
      step_completed (fst (Execute w trace s)) = true /\
      verify_denies (fst (Execute w trace s)) = false) /\
  (forall w, cancel_requested C w = false) /\
  (forall w, (clock_now C w <= time_budget cfg)%nat).

End Core.

(** ** Stub collaborators for the scenarios of section 8 *)

Definition accept_all : Schemas := {|
  input_ok := fun _ _ => true;
  output_ok := fun _ _ _ => true;
  same_input := fun _ _ => false
|}.

Definition defaults : Config := {|
  step_ceiling := 10; retry_ceiling := 2; time_budget := 1000
|}.

Definition reply (text : string) : JSON := JObj [("text", JStr text)].

(** Collaborators that never fail, with the Planner given as a function of
    the trace. *)
Definition stubs (planner : list Step -> option Plan) : Collaborators unit := {|
  planner_next_step := fun w _ trace => (planner trace, w);
  retriever_query := fun w _ => (inl (JArr []), w);
  tool_invoker_call := fun w _ => (inl (JObj []), w);
  verifier_check := fun w _ _ => (inl true, w);
  responder_format := fun w i _ => (inl i, w);
  guardrail_policy_evaluate := fun w _ _ => (allow, w);
  clock_now := fun _ => 0%nat;
  cancel_requested := fun _ => false
|}.

(** The adversarial Planner of scenario D: it always proposes a Step. *)
Definition restless (trace : list Step) : option Plan :=
  Some (Propose plan "think again" JNull).

(** The Planner of scenario A: [plan], then [respond] with ["4"], then
    [Done]. *)
Definition direct_answer (trace : list Step) : option Plan :=
  match trace with
  | [] => Some (Propose plan "answer directly" JNull)
  | [_] => Some (Propose respond "reply" (reply "4"))
  | _ => Some Done
  end.

(** The collaborators of scenario B: the world counts the calls to the
    Retriever, which times out on the first two. *)
Definition flaky : Collaborators nat := {|
  planner_next_step := fun w _ trace =>
    (match trace with
     | [] => Some (Propose retrieve "look it up" (JObj [("query", JStr "2+2")]))
     | [_] => Some (Propose respond "reply" (reply "4"))
     | _ => Some Done
     end, w);
  retriever_query := fun w _ =>
    if (w <? 2)%nat then (inr collaborator_timeout, Datatypes.S w)
    else (inl (JArr [JStr "passage"]), Datatypes.S w);
  tool_invoker_call := fun w _ => (inl (JObj []), w);
  verifier_check := fun w _ _ => (inl true, w);
  responder_format := fun w i _ => (inl i, w);
  guardrail_policy_evaluate := fun w _ _ => (allow, w);
  clock_now := fun _ => 0%nat;
  cancel_requested := fun _ => false
|}.

(** The collaborators of scenario C: the Planner wants to send a mail and
    the guardrail policy denies it. *)
Definition guarded_mail : Collaborators unit := {|
  planner_next_step := fun w _ _ =>
    (Some (Propose act "send the mail" (JObj [("tool_name", JStr "mail")])), w);
  retriever_query := fun w _ => (inl (JArr []), w);
  tool_invoker_call := fun w _ => (inl (JObj [("sent", JBool true)]), w);
  verifier_check := fun w _ _ => (inl true, w);
  responder_format := fun w i _ => (inl i, w);
  guardrail_policy_evaluate := fun w _ _ => (deny "external mail", w);
  clock_now := fun _ => 0%nat;
  cancel_requested := fun _ => false
|}.

Definition question : list (string * string) := [("user", "What is 2+2?")].

End Orchestrator.

(* ===================================================================== *)
(** * Properties of the chat widget                                        *)
(* ===================================================================== *)

Section WidgetFacts.
Import Js Widget.

Variable null_read_message : string -> string.
Variable coerced_positive : JSON -> bool.

Local Abbreviation resume := (sendMessage_resume null_read_message).
Local Abbreviation react := (Widget.react null_read_message).
Local Abbreviation run := (Widget.run null_read_message).

Lemma string_eqb_empty (s : string) : String.eqb s "" = true <-> s = "".
Proof. apply String.eqb_eq. Qed.

Example trim_strips_both_ends : trim "  two words   " = "two words".
Proof. reflexivity. Qed.

Example trim_of_blank : trim (String (ascii_of_nat 9) "  ") = "".
Proof. reflexivity. Qed.

Example last_member_wins :
  get (JObj [("steps", JNum 1); ("steps", JNum 2)]) "steps" = num 2.
Proof. reflexivity. Qed.

Lemma not_blank_not_empty (s : string) : trim s <> "" -> s <> "".
Proof. intros Hne ->. apply Hne. reflexivity. Qed.

Lemma send_blocked_iff (st : AppState) :
  send_blocked st = true <-> trim (inputMessage st) = "" \/ isLoading st = true.
Proof.
  unfold send_blocked. cbn [truthy str]. rewrite negb_involutive.
  rewrite orb_true_iff, string_eqb_empty. reflexivity.
Qed.

Lemma send_allowed (st : AppState) :
  send_blocked st = false -> trim (inputMessage st) <> "" /\ isLoading st = false.
Proof.
  intros Hb. split.
  - intros He. assert (send_blocked st = true) by (apply send_blocked_iff; auto).
    congruence.
  - destruct (isLoading st) eqn:Hl; [|reflexivity].
    assert (send_blocked st = true) by (apply send_blocked_iff; auto).
    congruence.
Qed.

Lemma sendMessage_blocked (st : AppState) (now ts : Z) :
  send_blocked st = true -> sendMessage st now ts = (st, None).
Proof. intros Hb. unfold sendMessage. rewrite Hb. reflexivity. Qed.

Lemma sendMessage_issued (st st' : AppState) (now ts : Z) (req : Request) :
  sendMessage st now ts = (st', Some req) ->
  send_blocked st = false /\
  messages st' = messages st ++ [userMessage st now ts] /\
  inputMessage st' = "" /\ isLoading st' = true /\ showSteps st' = showSteps st /\
  url req = "http://localhost:8000/chat" /\ method req = "POST" /\
  body req = request_body (messages st ++ [userMessage st now ts]).
Proof.
  unfold sendMessage. destruct (send_blocked st); [discriminate|].
  intros [= <- <-]. cbn. repeat split; reflexivity.
Qed.

Lemma sendMessage_silent (st st' : AppState) (now ts : Z) :
  sendMessage st now ts = (st', None) -> st' = st.
Proof.
  unfold sendMessage. destruct (send_blocked st); [|discriminate].
  now intros [= <-].
Qed.

Lemma userMessage_ok (st : AppState) (now ts : Z) :
  send_blocked st = false -> stored_ok (userMessage st now ts).
Proof.
  intros Hb. apply send_allowed in Hb as [Hne _].
  repeat split.
  - intros _. exists (inputMessage st). split; [reflexivity|assumption].
  - left. reflexivity.
Qed.

Lemma assistantMessage_ok (data : JSON) (now ts : Z) :
  stored_ok (assistantMessage data now ts).
Proof.
  repeat split.
  - cbn. discriminate.
  - right. reflexivity.
  - cbn. unfold js_or. destruct (truthy (get data "steps")) eqn:Ht; [assumption|reflexivity].
Qed.

Lemma errorMessage_ok (message : string) (now ts : Z) :
  stored_ok (errorMessage message now ts).
Proof.
  repeat split.
  - cbn. discriminate.
  - right. reflexivity.
Qed.

Lemma resume_messages (st : AppState) (o : Outcome) (now ts : Z) :
  messages (resume st o now ts) =
  messages st ++ [match try_block null_read_message o with
                  | inl data => assistantMessage data now ts
                  | inr message => errorMessage message now ts
                  end].
Proof. unfold sendMessage_resume. destruct (try_block _ o); reflexivity. Qed.

Lemma resume_not_loading (st : AppState) (o : Outcome) (now ts : Z) :
  isLoading (resume st o now ts) = false.
Proof. reflexivity. Qed.

Lemma resume_stored (st : AppState) (o : Outcome) (now ts : Z) :
  Forall stored_ok (messages st) -> Forall stored_ok (messages (resume st o now ts)).
Proof.
  intros Hst. rewrite resume_messages. apply Forall_app. split; [assumption|].
  constructor; [|constructor].
  destruct (try_block _ o); [apply assistantMessage_ok|apply errorMessage_ok].
Qed.

Lemma issue_consistent (w : World) (now ts : Z) :
  consistent w ->
  consistent (issue w (sendMessage (app w) now ts)).
Proof.
  intros [Hfl Hst Hpo].
  destruct (sendMessage (app w) now ts) as [st' [req|]] eqn:Hs.
  - apply sendMessage_issued in Hs as (Hb & Hm & _ & Hl & _ & _ & _ & Hbody).
    pose proof (send_allowed _ Hb) as [_ Hidle].
    rewrite Hidle in Hfl.
    assert (Hall : Forall stored_ok (messages (app w) ++ [userMessage (app w) now ts])).
    { apply Forall_app. split; [assumption|].
      constructor; [apply userMessage_ok; assumption|constructor]. }
    constructor; cbn.
    + rewrite Hl, length_app, Hfl. reflexivity.
    + rewrite Hm. assumption.
    + apply Forall_app. split; [assumption|].
      constructor; [|constructor].
      exists (messages (app w) ++ [userMessage (app w) now ts]).
      split; [assumption|]. split; [|assumption].
      intros He. apply app_eq_nil in He as [_ He]. discriminate.
  - apply sendMessage_silent in Hs as ->. constructor; assumption.
Qed.

Lemma react_consistent (w : World) (e : Event) :
  consistent w -> consistent (react w e).
Proof.
  intros Hw. destruct e as [text|now ts|key shiftKey now ts|messageId|o now ts]; cbn.
  - destruct Hw. constructor; assumption.
  - apply issue_consistent; assumption.
  - unfold handleKeyPress.
    destruct (String.eqb key "Enter" && negb shiftKey).
    + apply issue_consistent; assumption.
    + destruct Hw. constructor; assumption.
  - destruct Hw. constructor; assumption.
  - destruct (inflight w) as [|req rest] eqn:Hin; [assumption|].
    destruct Hw as [Hfl Hst Hpo]. rewrite Hin in Hfl.
    constructor; cbn.
    + destruct (isLoading (app w)); cbn in Hfl; [|discriminate].
      destruct rest; [reflexivity|discriminate].
    + apply resume_stored. assumption.
    + assumption.
Qed.

Lemma start_consistent (t0 : Z) : consistent (start t0).
Proof.
  constructor; cbn.
  - reflexivity.
  - constructor; [|constructor]. repeat split.
    + cbn. discriminate.
    + right. reflexivity.
  - constructor.
Qed.

Lemma run_snoc (t0 : Z) (events : list Event) (e : Event) :
  run t0 (events ++ [e]) = react (run t0 events) e.
Proof. unfold Widget.run. rewrite fold_left_app. reflexivity. Qed.

Lemma run_consistent (t0 : Z) (events : list Event) : consistent (run t0 events).
Proof.
  induction events as [|e events IH] using rev_ind.
  - apply start_consistent.
  - rewrite run_snoc. apply react_consistent. assumption.
Qed.

Lemma wire_message_shape (m : Message) :
  wire_message m =
  JObj (("role", JStr (role m)) ::
        match content m with
        | VUndefined => []
        | VJson c => [("content", c)]
        end).
Proof. unfold wire_message. cbn. destruct (content m); reflexivity. Qed.

Lemma wire_message_role (m : Message) : get (wire_message m) "role" = str (role m).
Proof. rewrite wire_message_shape. destruct (content m); reflexivity. Qed.

Lemma wire_message_content (m : Message) :
  get (wire_message m) "content" = content m.
Proof. rewrite wire_message_shape. destruct (content m); reflexivity. Qed.

Lemma posted_messages_carried (req : Request) (msgs : list Message) :
  body req = request_body msgs -> posted_messages req = map wire_message msgs.
Proof. unfold posted_messages. intros ->. reflexivity. Qed.

Lemma role_and_content_defined (m : Message) :
  known_role m -> content m <> VUndefined -> role_and_content (wire_message m) = true.
Proof.
  intros Hr Hc. rewrite wire_message_shape.
  destruct (content m) as [|c]; [congruence|].
  destruct Hr as [-> | ->]; reflexivity.
Qed.

(** C8: a [sendMessage] invoked on a blank input or while a request is in
    flight issues no request and changes nothing; hence no reachable world
    has more than one request in flight, and every message with role
    [user] in every request ever posted has a non-empty string as its
    content. *)
Theorem C8_blocked_send_is_inert :
  (forall (st : AppState) (now ts : Z),
      trim (inputMessage st) = "" \/ isLoading st = true ->
      sendMessage st now ts = (st, None)) /\
  (forall (t0 : Z) (events : list Event),
      (length (inflight (run t0 events)) <= 1)%nat) /\
  (forall (t0 : Z) (events : list Event) (req : Request) (element : JSON),
      In req (sent (run t0 events)) ->
      In element (posted_messages req) ->
      get element "role" = str "user" ->
      exists text, get element "content" = str text /\ text <> "").
Proof.
  split; [|split].
  - intros st now ts Hb. apply sendMessage_blocked, send_blocked_iff, Hb.
  - intros t0 events. destruct (run_consistent t0 events) as [Hfl _ _].
    rewrite Hfl. destruct (isLoading _); lia.
  - intros t0 events req element Hreq Hel Hrole.
    destruct (run_consistent t0 events) as [_ _ Hpo].
    rewrite Forall_forall in Hpo.
    destruct (Hpo req) as (msgs & Hbody & _ & Hall).
    { apply list_elem_of_In. exact Hreq. }
    rewrite (posted_messages_carried _ _ Hbody) in Hel.
    apply in_map_iff in Hel as (m & <- & Hm).
    rewrite Forall_forall in Hall.
    destruct (Hall m) as (Huser & _ & _).
    { apply list_elem_of_In. exact Hm. }
    rewrite wire_message_role in Hrole. injection Hrole as Hrole.
    destruct (Huser Hrole) as (text & Hc & Hne).
    exists text. rewrite wire_message_content. split; [assumption|].
    apply not_blank_not_empty. assumption.
Qed.

(** C9: when the [fetch] rejects or the response is not [ok], exactly one
    message is appended to the list as it was, the user's message
    included; it has role [assistant], [isError] set, no steps, and the
    text [Sorry, I encountered an error: ] followed by the error's message;
    and [isLoading] is [false] afterwards, whatever the [fetch] settled
    to. *)
Theorem C9_failed_fetch_appends_error_bubble
    (st : AppState) (o : Outcome) (now ts : Z) :
  fetch_failed o = true ->
  (exists e message,
      messages (resume st o now ts) = messages st ++ [e] /\
      role e = "assistant" /\ isError e = true /\ steps e = arr [] /\
      content e = str ("Sorry, I encountered an error: " +:+ message) /\
      (forall (st0 : AppState) (now0 ts0 : Z) (req : Request),
          sendMessage st0 now0 ts0 = (st, Some req) ->
          messages (resume st o now ts) =
          messages st0 ++ [userMessage st0 now0 ts0; e])) /\
  (forall o' : Outcome, isLoading (resume st o' now ts) = false).
Proof.
  intros Hf. split; [|intros o'; apply resume_not_loading].
  assert (Htry : exists message, try_block null_read_message o = inr message).
  { destruct o as [message|http_status b]; cbn in *.
    - eauto.
    - rewrite Hf. eauto. }
  destruct Htry as [message Htry].
  exists (errorMessage message now ts), message.
  rewrite resume_messages, Htry. repeat split.
  intros st0 now0 ts0 req Hs.
  apply sendMessage_issued in Hs as (_ & -> & _).
  rewrite <- app_assoc. reflexivity.
Qed.

(** C5, amended: every request that [sendMessage] issues from a reachable
    world is a POST to [/chat] whose body is [{ messages: [...] }]; the
    array is not empty and lists the stored messages, the one just typed
    last, in the order they were stored; each element carries the member
    [role], which is [user] or [assistant], followed by the member
    [content] when the stored content is not [undefined], and by nothing
    otherwise; the last element is the typed text with role [user]. *)
Theorem C5_request_body_lists_the_conversation
    (t0 : Z) (events : list Event) (now ts : Z) (st' : AppState) (req : Request) :
  sendMessage (app (run t0 events)) now ts = (st', Some req) ->
  let typed := userMessage (app (run t0 events)) now ts in
  method req = "POST" /\ url req = "http://localhost:8000/chat" /\
  messages st' = messages (app (run t0 events)) ++ [typed] /\
  body req = JObj [("messages", JArr (map wire_message (messages st')))] /\
  posted_messages req <> [] /\
  wire_message typed =
    JObj [("role", JStr "user");
          ("content", JStr (inputMessage (app (run t0 events))))] /\
  Forall (fun m =>
            (role m = "user" \/ role m = "assistant") /\
            wire_message m =
              JObj (("role", JStr (role m)) ::
                    match content m with
                    | VUndefined => []
                    | VJson c => [("content", c)]
                    end) /\
            (content m <> VUndefined -> role_and_content (wire_message m) = true))
         (messages st').
Proof.
  intros Hs typed.
  apply sendMessage_issued in Hs as (Hb & Hm & _ & _ & _ & Hurl & Hmeth & Hbody).
  rewrite Hm. repeat split; try assumption.
  - rewrite (posted_messages_carried _ _ Hbody), map_app. cbn.
    intros He. apply app_eq_nil in He as [_ He]. discriminate.
  - assert (Hall : Forall stored_ok (messages (app (run t0 events)) ++ [typed])).
    { apply Forall_app. split.
      - apply run_consistent.
      - constructor; [apply userMessage_ok; assumption|constructor]. }
    eapply Forall_impl; [exact Hall|].
    intros m (_ & Hr & _). split; [exact Hr|]. split; [apply wire_message_shape|].
    apply role_and_content_defined. exact Hr.
Qed.

Lemma step_view_sound (step : JSON) :
  sound_entry step -> step_view step = Some (step_card step).
Proof.
  intros (Hnn & Ha & Hs & Hd). unfold step_view, entry_draws.
  rewrite Ha, Hs, Hd. destruct step; try reflexivity. congruence.
Qed.

Lemma steps_view_cards (entries : list JSON) :
  Forall sound_entry entries ->
  steps_view (arr entries) = Some (map step_card entries).
Proof.
  unfold steps_view, arr. induction 1 as [|e entries He _ IH]; [reflexivity|].
  cbn [mapM]. rewrite (step_view_sound e He), IH. reflexivity.
Qed.

Lemma has_steps_arr (entries : list JSON) :
  has_steps coerced_positive (arr entries) =
  match entries with
  | [] => inl (VJson (JBool false))
  | _ :: _ => inr tt
  end.
Proof. destruct entries; reflexivity. Qed.

Lemma strict_eq_str_false (v : value) (s : string) :
  v <> str s -> strict_eq_str v s = false.
Proof.
  intros Hne. destruct v as [|j]; [reflexivity|].
  destruct j; try reflexivity. cbn.
  destruct (String.eqb s0 s) eqn:He; [|reflexivity].
  apply String.eqb_eq in He. subst. exfalso. apply Hne. reflexivity.
Qed.

(** C6, amended: for the assistant message built from a successful
    response whose [steps] is a non-empty array of entries that are not
    [null] and whose [action_type], [status] and [description] React can
    draw (strings are), the widget renders the Show/Hide Steps button with
    the number of steps; the steps panel holds one card per entry, in the
    order of the array, when the panel of that message has been toggled
    open, and is not rendered otherwise; a card shows the icon chosen by
    the entry's [action_type], the [action_type] itself, the [status] as a
    badge, the [description], and the [output_data] as JSON details when it
    is present and an object.  The message is rendered so, button and
    panel included, whenever the body's [response] and [tokens_used] are
    values that React can draw, as a string and a number are. *)
Theorem C6_open_panel_shows_the_steps
    (shown : gmap Z bool) (data : JSON) (now ts : Z) (entries : list JSON) :
  get data "steps" = arr entries ->
  entries <> [] ->
  Forall sound_entry entries ->
  let m := assistantMessage data now ts in
  (forall (st : AppState) (http_status : Z),
      response_ok http_status = true ->
      messages (resume st (Responded http_status (Parsed data)) now ts)
      = messages st ++ [m]) /\
  steps m = arr entries /\
  toggle_view coerced_positive shown m =
    Shown (if default false (shown !! id m) then "Hide" else "Show",
           num (Z.of_nat (length entries))) /\
  panel_view coerced_positive shown m =
    Some (match shown !! id m with
          | Some true => Shown (map step_card entries)
          | Some false => Hidden (VJson (JBool false))
          | None => Hidden VUndefined
          end) /\
  (child_ok (get data "response") = true ->
   child_ok (get data "tokens_used") = true ->
   exists view,
     message_view coerced_positive shown m = Some view /\
     mv_content view = get data "response" /\
     mv_toggle view =
       Shown (if default false (shown !! id m) then "Hide" else "Show",
              num (Z.of_nat (length entries))) /\
     mv_panel view =
       match shown !! id m with
       | Some true => Shown (map step_card entries)
       | Some false => Hidden (VJson (JBool false))
       | None => Hidden VUndefined
       end) /\
  (forall step : JSON,
      sv_icon (step_card step) = getStepIcon (get step "action_type") /\
      sv_label (step_card step) = get step "action_type" /\
      sv_badge (step_card step) = get step "status" /\
      sv_badge_class (step_card step) = "text-xs " +:+ getStepColor (get step "status") /\
      sv_description (step_card step) = get step "description" /\
      (forall members : list (string * JSON),
          get step "output_data" = VJson (JObj members) ->
          sv_details (step_card step) = Shown (JObj members)) /\
      (get step "output_data" = VUndefined ->
       sv_details (step_card step) = Hidden VUndefined)) /\
  getStepIcon (str "plan") = Settings /\
  getStepIcon (str "retrieve") = Search /\
  getStepIcon (str "act") = Bot /\
  getStepIcon (str "verify") = FileText /\
  getStepIcon (str "respond") = Send.
Proof.
  intros Hsteps Hne Hall m.
  assert (Hm : steps m = arr entries).
  { cbn. rewrite Hsteps. reflexivity. }
  split.
  { intros st http_status Hok. rewrite resume_messages. cbn. rewrite Hok. cbn.
    destruct data; try reflexivity. discriminate Hsteps. }
  split; [exact Hm|].
  assert (Htoggle : toggle_view coerced_positive shown m =
                    Shown (if default false (shown !! id m) then "Hide" else "Show",
                           num (Z.of_nat (length entries)))).
  { unfold toggle_view. rewrite Hm, has_steps_arr.
    destruct entries as [|e rest]; [congruence|]. reflexivity. }
  assert (Hpanel : panel_view coerced_positive shown m =
                   Some (match shown !! id m with
                         | Some true => Shown (map step_card entries)
                         | Some false => Hidden (VJson (JBool false))
                         | None => Hidden VUndefined
                         end)).
  { unfold panel_view. rewrite Hm, has_steps_arr.
    destruct (shown !! id m) as [[|]|]; try reflexivity.
    destruct entries as [|e rest]; [congruence|].
    rewrite steps_view_cards by assumption. reflexivity. }
  split; [exact Htoggle|]. split; [exact Hpanel|]. split.
  - intros Hresp Htok. unfold message_view, children_draw.
    rewrite Htoggle, Hpanel.
    change (content m) with (get data "response").
    change (tokensUsed m) with (get data "tokens_used").
    rewrite Hresp, Htok. cbn. eexists. repeat split.
  - split; [intros step|]; repeat split.
    + intros members Hout. cbn. rewrite Hout. reflexivity.
    + intros Hout. cbn. rewrite Hout. reflexivity.
Qed.

Lemma children_draw_closed (shown : gmap Z bool) (m : Message) :
  children_draw coerced_positive shown m = true ->
  shown !! id m <> Some true ->
  exists view,
    message_view coerced_positive shown m = Some view /\
    mv_content view = content m /\ mv_bubble view = bubble m /\
    is_shown (mv_panel view) = false.
Proof.
  intros Hdraw Hclosed. unfold message_view, panel_view. rewrite Hdraw.
  destruct (shown !! id m) as [[|]|]; [congruence| |]; cbn;
    eexists; repeat split.
Qed.

Lemma message_view_shows (shown : gmap Z bool) (m : Message) (view : MessageView) :
  message_view coerced_positive shown m = Some view ->
  mv_key view = id m /\ mv_content view = content m /\
  mv_bubble view = bubble m /\
  mv_tokens view = (if truthy (tokensUsed m) then Shown (tokensUsed m)
                    else Hidden (tokensUsed m)) /\
  mv_toggle view = toggle_view coerced_positive shown m /\
  panel_view coerced_positive shown m = Some (mv_panel view) /\
  children_draw coerced_positive shown m = true.
Proof.
  unfold message_view.
  destruct (children_draw coerced_positive shown m); [|discriminate].
  destruct (panel_view coerced_positive shown m); cbn; [|discriminate].
  intros [= <-]. repeat split.
Qed.

(** C7, amended: for a response that is [ok] (status 200 is) and whose
    body parses to JSON and carries a string as [response], the widget
    appends a message that is not an error, with that string as content
    and the body's [steps] (or [[]] when those are falsy), [tokens_used]
    and [status] attached, whatever that status says; wherever the message
    is rendered it is drawn as a normal bubble with that string as its
    text; and it is rendered, while its steps panel is not open, whenever
    [tokens_used] is missing or a value React can draw, as a number is, and
    [steps] is missing or an array.  The appended message is an error
    bubble exactly when the [fetch] failed, the response was not [ok], or
    the body of an [ok] response did not parse or was [null]. *)
Theorem C7_usable_body_is_shown_as_sent (st : AppState) (now ts : Z) :
  response_ok 200 = true /\
  (forall (http_status : Z) (data : JSON) (text : string),
      response_ok http_status = true ->
      get data "response" = str text ->
      let m := assistantMessage data now ts in
      messages (resume st (Responded http_status (Parsed data)) now ts)
        = messages st ++ [m] /\
      role m = "assistant" /\ isError m = false /\
      content m = str text /\
      steps m = js_or (get data "steps") (arr []) /\
      tokensUsed m = get data "tokens_used" /\
      status m = get data "status" /\
      (forall (shown : gmap Z bool) (view : MessageView),
          message_view coerced_positive shown m = Some view ->
          mv_content view = str text /\ mv_bubble view = NormalBubble) /\
      (forall shown : gmap Z bool,
          shown !! id m <> Some true ->
          child_ok (get data "tokens_used") = true ->
          get data "steps" = VUndefined \/ is_array (get data "steps") = true ->
          exists view,
            message_view coerced_positive shown m = Some view /\
            mv_content view = str text /\ mv_bubble view = NormalBubble)) /\
  (forall o : Outcome,
      exists m,
        messages (resume st o now ts) = messages st ++ [m] /\
        isError m = fetch_failed o || body_unusable o).
Proof.
  split; [reflexivity|]. split.
  - intros http_status data text Hok Hresp m.
    assert (Hc : content m = str text) by exact Hresp.
    assert (Hb : bubble m = NormalBubble) by reflexivity.
    split.
    { rewrite resume_messages. cbn. rewrite Hok. cbn.
      destruct data; try reflexivity. discriminate Hresp. }
    do 6 (split; [first [reflexivity|exact Hc]|]).
    split.
    + intros shown view Hv. apply message_view_shows in Hv as (_ & Hvc & Hvb & _).
      rewrite Hvc, Hvb, Hc, Hb. split; reflexivity.
    + intros shown Hclosed Htok Hsteps.
      destruct (children_draw_closed shown m) as (view & Hv & Hvc & Hvb & _);
        [|exact Hclosed|].
      * unfold children_draw. rewrite Hc.
        change (tokensUsed m) with (get data "tokens_used"). rewrite Htok.
        cbn [child_ok valid_child str andb].
        unfold toggle_view.
        change (steps m) with (js_or (get data "steps") (arr [])).
        destruct Hsteps as [-> | Harr]; [reflexivity|].
        destruct (get data "steps") as [|[| | | |items|]]; try discriminate.
        change (js_or (VJson (JArr items)) (arr [])) with (arr items).
        rewrite has_steps_arr. destruct items; reflexivity.
      * exists view. rewrite Hvc, Hvb, Hc, Hb. repeat split. exact Hv.
  - intros o. eexists. rewrite resume_messages. split; [reflexivity|].
    destruct o as [message|http_status b]; cbn; [reflexivity|].
    destruct (response_ok http_status); cbn; [|reflexivity].
    destruct b as [data|message]; [|reflexivity].
    destruct data; reflexivity.
Qed.

(** C10, amended: every stored message has a truthy [steps]: the body's
    [steps] when that is truthy and [[]] otherwise (so [[]] when it is
    missing), an array whenever the body's [steps] is an array or falsy.
    For a message whose [steps] is an array, the toggle is shown exactly
    when the array is not empty, and the panel exactly when moreover the
    message has been toggled open.  [getStepIcon] and [getStepColor] answer
    on every value, with the [Bot] icon and the gray classes outside the
    known strings. *)
Theorem C10_steps_defaults_and_fallbacks :
  (forall (t0 : Z) (events : list Event) (m : Message),
      In m (messages (app (run t0 events))) -> truthy (steps m) = true) /\
  (forall (data : JSON) (now ts : Z),
      steps (assistantMessage data now ts) =
        (if truthy (get data "steps") then get data "steps" else arr []) /\
      (get data "steps" = VUndefined -> steps (assistantMessage data now ts) = arr []) /\
      is_array (steps (assistantMessage data now ts)) =
        is_array (get data "steps") || negb (truthy (get data "steps"))) /\
  (forall (shown : gmap Z bool) (m : Message) (entries : list JSON),
      steps m = arr entries ->
      is_shown (toggle_view coerced_positive shown m) = negb (Nat.eqb (length entries) 0) /\
      forall g, panel_view coerced_positive shown m = Some g ->
                is_shown g = default false (shown !! id m) && negb (Nat.eqb (length entries) 0)) /\
  (forall v : value,
      v <> str "plan" -> v <> str "retrieve" -> v <> str "act" ->
      v <> str "verify" -> v <> str "respond" ->
      getStepIcon v = Bot) /\
  (forall v : value,
      v <> str "completed" -> v <> str "running" -> v <> str "failed" ->
      getStepColor v = "bg-gray-100 text-gray-800 border-gray-200").
Proof.
  split; [|split; [|split; [|split]]].
  - intros t0 events m Hm.
    destruct (run_consistent t0 events) as [_ Hst _].
    rewrite Forall_forall in Hst.
    destruct (Hst m) as (_ & _ & Ht); [|exact Ht].
    apply list_elem_of_In. exact Hm.
  - intros data now ts. cbn. unfold js_or. split; [reflexivity|]. split.
    + intros ->. reflexivity.
    + destruct (truthy (get data "steps")) eqn:Ht; cbn.
      * rewrite orb_false_r. reflexivity.
      * rewrite orb_true_r. reflexivity.
  - intros shown m entries Hm. split.
    + unfold toggle_view. rewrite Hm, has_steps_arr.
      destruct entries; reflexivity.
    + intros g. unfold panel_view. rewrite Hm, has_steps_arr.
      destruct (shown !! id m) as [[|]|]; cbn.
      * destruct entries as [|e rest]; cbn; [intros [= <-]; reflexivity|].
        destruct (mapM step_view rest); destruct (step_view e); cbn;
          try discriminate.
        intros [= <-]. reflexivity.
      * intros [= <-]. reflexivity.
      * intros [= <-]. reflexivity.
  - intros v H1 H2 H3 H4 H5. unfold getStepIcon.
    rewrite !strict_eq_str_false by assumption. reflexivity.
  - intros v H1 H2 H3. unfold getStepColor.
    rewrite !strict_eq_str_false by assumption. reflexivity.
Qed.

End WidgetFacts.

Section WidgetExamples.
Import Js Widget.

Local Abbreviation run := (Widget.run v8_null_read).

(** C5 fails as stated: after a response whose body has no [response]
    member, the next request carries an element with the member [role]
    alone. *)
Lemma C5_element_without_content :
  let w := run 0 [EvChange "hi"; EvClick 10 10;
                  EvSettle (Responded 200 (Parsed (JObj []))) 20 20;
                  EvChange "again"; EvClick 30 30] in
  exists req,
    last (sent w) = Some req /\
    posted_messages req =
      [JObj [("role", JStr "assistant"); ("content", JStr greeting)];
       JObj [("role", JStr "user"); ("content", JStr "hi")];
       JObj [("role", JStr "assistant")];
       JObj [("role", JStr "user"); ("content", JStr "again")]] /\
    forallb role_and_content (posted_messages req) = false.
Proof. eexists. repeat split. Qed.

Lemma C5_witness :
  let st := app (run 0 [EvChange "hi"]) in
  exists st' req,
    sendMessage st 10 10 = (st', Some req) /\
    body req =
      JObj [("messages",
             JArr [JObj [("role", JStr "assistant"); ("content", JStr greeting)];
                   JObj [("role", JStr "user"); ("content", JStr "hi")]])].
Proof.
  eexists. eexists.
  assert (Hs : sendMessage (app (run 0 [EvChange "hi"])) 10 10 = (_, Some _))
    by reflexivity.
  split; [exact Hs|].
  destruct (C5_request_body_lists_the_conversation v8_null_read 0 [EvChange "hi"]
              10 10 _ _ Hs) as (_ & _ & _ & Hbody & _).
  exact Hbody.
Defined.

(** C6 fails as stated: after a successful response with two steps the
    widget renders the toggle button, and no step at all until the user
    opens the panel. *)
Lemma C6_steps_hidden_until_toggled :
  let w := run 0 [EvChange "What is 2+2?"; EvClick 10 10;
                  EvSettle (Responded 200 (Parsed four)) 20 20] in
  exists view mv,
    render never_positive (app w) = Some view /\
    last (av_messages view) = Some mv /\
    mv_content mv = str "4" /\
    mv_toggle mv = Shown ("Show", num 2) /\
    mv_panel mv = Hidden VUndefined /\
    mv_panel mv <> Shown (map step_card two_steps).
Proof. eexists. eexists. repeat split. discriminate. Qed.

Lemma C6_witness :
  get four "steps" = arr two_steps /\
  two_steps <> [] /\
  Forall sound_entry two_steps /\
  toggle_view never_positive {[ 21 := true ]} (assistantMessage four 20 20)
    = Shown ("Hide", num 2) /\
  panel_view never_positive {[ 21 := true ]} (assistantMessage four 20 20) =
    Some (Shown
      [ {| sv_icon := Settings; sv_label := str "plan";
           sv_badge_class := "text-xs bg-green-100 text-green-800 border-green-200";
           sv_badge := str "completed"; sv_description := str "answer directly";
           sv_details := Hidden VUndefined |};
        {| sv_icon := Send; sv_label := str "respond";
           sv_badge_class := "text-xs bg-green-100 text-green-800 border-green-200";
           sv_badge := str "completed"; sv_description := str "reply";
           sv_details := Shown (JObj [("text", JStr "4")]) |} ]).
Proof.
  assert (H1 : get four "steps" = arr two_steps) by reflexivity.
  assert (H2 : two_steps <> []) by discriminate.
  assert (H3 : Forall sound_entry two_steps).
  { repeat (constructor; [repeat split; discriminate|]). constructor. }
  split; [exact H1|]. split; [exact H2|]. split; [exact H3|].
  destruct (C6_open_panel_shows_the_steps v8_null_read never_positive
              {[ 21 := true ]} four 20 20 two_steps H1 H2 H3)
    as (_ & _ & Ht & Hp & _).
  split; [exact Ht|exact Hp].
Defined.

(** C7 fails as stated: a response with status 200 whose body is not JSON
    makes [response.json()] reject, and the widget shows its error bubble
    although the response is [ok] and the [fetch] did not fail. *)
Lemma C7_error_bubble_on_ok_response :
  let o := Responded 200 (Unparseable "Unexpected token '<'") in
  let st := sendMessage_resume v8_null_read (initial_state 0) o 20 20 in
  response_ok 200 = true /\ fetch_failed o = false /\
  exists e,
    last (messages st) = Some e /\ isError e = true /\
    content e = str "Sorry, I encountered an error: Unexpected token '<'".
Proof. repeat split. eexists. repeat split. Qed.

Lemma C7_witness :
  response_ok 200 = true /\ get four "response" = str "4" /\
  (∅ : gmap Z bool) !! 21%Z <> Some true /\
  child_ok (get four "tokens_used") = true /\
  is_array (get four "steps") = true /\
  exists m view,
    messages (sendMessage_resume v8_null_read (initial_state 0)
                (Responded 200 (Parsed four)) 20 20)
    = messages (initial_state 0) ++ [m] /\
    isError m = false /\ status m = str "completed" /\
    message_view never_positive ∅ m = Some view /\
    mv_content view = str "4" /\ mv_bubble view = NormalBubble.
Proof.
  assert (H1 : response_ok 200 = true) by reflexivity.
  assert (H2 : get four "response" = str "4") by reflexivity.
  assert (H3 : (∅ : gmap Z bool) !! 21%Z <> Some true) by discriminate.
  assert (H4 : child_ok (get four "tokens_used") = true) by reflexivity.
  assert (H5 : is_array (get four "steps") = true) by reflexivity.
  split; [exact H1|]. split; [exact H2|]. split; [exact H3|].
  split; [exact H4|]. split; [exact H5|].
  destruct (proj1 (proj2 (C7_usable_body_is_shown_as_sent v8_null_read never_positive
                            (initial_state 0) 20 20)) 200 four "4" H1 H2)
    as (Hm & _ & He & _ & _ & _ & Hs & _ & Hdraw).
  destruct (Hdraw ∅ H3 H4 (or_intror H5)) as (view & Hv & Hc & Hb).
  exists (assistantMessage four 20 20), view.
  repeat (split; [assumption|]). assumption.
Defined.

Lemma C8_witness :
  let st := app (run 0 [EvChange "   "]) in
  trim (inputMessage st) = "" /\ sendMessage st 10 10 = (st, None).
Proof.
  split; [reflexivity|].
  apply (proj1 (C8_blocked_send_is_inert v8_null_read)). left. reflexivity.
Defined.

Lemma C9_witness :
  let st := app (run 0 [EvChange "hi"; EvClick 10 10]) in
  let o := Responded 500 (Parsed JNull) in
  fetch_failed o = true /\
  exists e,
    messages (sendMessage_resume v8_null_read st o 20 20) = messages st ++ [e] /\
    isError e = true /\
    content e = str "Sorry, I encountered an error: Failed to get response".
Proof.
  assert (H : fetch_failed (Responded 500 (Parsed JNull)) = true) by reflexivity.
  split; [exact H|].
  destruct (proj1 (C9_failed_fetch_appends_error_bubble v8_null_read
                     (app (run 0 [EvChange "hi"; EvClick 10 10]))
                     (Responded 500 (Parsed JNull)) 20 20 H))
    as (e & message & Hm & _ & He & _ & Hc & _).
  exists e. split; [exact Hm|]. split; [exact He|].
  apply app_inj_tail in Hm as [_ <-]. reflexivity.
Defined.

(** C10 fails as stated: a body whose [steps] is the number 5 is stored as
    it is, and the stored message's [steps] is not an array. *)
Lemma C10_steps_stored_not_an_array :
  let w := run 0 [EvChange "hi"; EvClick 10 10;
                  EvSettle (Responded 200
                              (Parsed (JObj [("response", JStr "ok");
                                             ("steps", JNum 5)]))) 20 20] in
  exists m,
    last (messages (app w)) = Some m /\
    steps m = num 5 /\ is_array (steps m) = false.
Proof. eexists. repeat split. Qed.

Lemma C10_witness :
  let m := assistantMessage four 20 20 in
  steps m = arr two_steps /\
  is_shown (toggle_view never_positive ∅ m) = true /\
  getStepIcon (str "summarise") = Bot.
Proof.
  assert (H : steps (assistantMessage four 20 20) = arr two_steps) by reflexivity.
  split; [exact H|]. split.
  - exact (proj1 (proj1 (proj2 (proj2 (C10_steps_defaults_and_fallbacks
                                         v8_null_read never_positive)))
                    ∅ (assistantMessage four 20 20) two_steps H)).
  - apply (proj1 (proj2 (proj2 (proj2 (C10_steps_defaults_and_fallbacks
                                         v8_null_read never_positive)))));
      discriminate.
Defined.

End WidgetExamples.

(* ===================================================================== *)
(** * Properties of the orchestration core                                 *)
(* ===================================================================== *)

Section OrchestratorFacts.
Import Js Orchestrator.

Context {W : Type}.
Variable C : Collaborators W.
Variable S : Schemas.
Variable cfg : Config.

Local Abbreviation Execute := (Orchestrator.Execute C S).
Local Abbreviation loop_step := (Orchestrator.loop_step C S cfg).
Local Abbreviation iterate := (Orchestrator.iterate C S cfg).
Local Abbreviation open_session := (Orchestrator.open_session C).
Local Abbreviation ShouldHalt := (Orchestrator.ShouldHalt cfg).

(** ** The Step Executor *)

Lemma gate_shape (w : W) (trace : list Step) (s : Step) (out : JSON) :
  let s' := fst (gate C w trace s out) in
  attempt_count s' = attempt_count s /\
  action_type s' = action_type s /\
  (step_completed s' = true ->
   accepted_by (fst (guardrail_policy_evaluate C w out trace)) out (output_data s')).
Proof.
  unfold gate.
  destruct (guardrail_policy_evaluate C w out trace) as [[| reason | replacement] w'];
    cbn; repeat split; try reflexivity; discriminate.
Qed.

Lemma Execute_keeps (w : W) (trace : list Step) (s : Step) :
  let s' := fst (Execute w trace s) in
  attempt_count s' = attempt_count s /\ action_type s' = action_type s.
Proof.
  unfold Orchestrator.Execute.
  destruct (negb (input_ok S (action_type s) (input s))); [now split|].
  destruct (dispatch C w trace s) as [[out | k] w1]; [|now split].
  destruct (negb (output_ok S (action_type s) trace out)); [now split|].
  destruct (gated (action_type s)); [|now split].
  destruct (gate_shape w1 trace s out) as (Ha & Hb & _). now split.
Qed.

Lemma Execute_gated (w : W) (trace : list Step) (s : Step) :
  gated (action_type s) = true ->
  step_completed (fst (Execute w trace s)) = true ->
  exists candidate w1,
    dispatch C w trace s = (inl candidate, w1) /\
    output_ok S (action_type s) trace candidate = true /\
    accepted_by (fst (guardrail_policy_evaluate C w1 candidate trace))
                candidate (output_data (fst (Execute w trace s))).
Proof.
  intros Hg. unfold Orchestrator.Execute.
  destruct (negb (input_ok S (action_type s) (input s))); [discriminate|].
  destruct (dispatch C w trace s) as [[out | k] w1]; [|discriminate].
  destruct (output_ok S (action_type s) trace out) eqn:Hout; cbn; [|discriminate].
  rewrite Hg. intros Hc. exists out, w1.
  split; [reflexivity|]. split; [exact Hout|].
  destruct (gate_shape w1 trace s out) as (_ & _ & Hacc). apply Hacc. exact Hc.
Qed.

Lemma Execute_accepted (w : W) (trace : list Step) (s : Step) :
  gated (action_type (fst (Execute w trace s))) = true ->
  step_completed (fst (Execute w trace s)) = true ->
  gate_accepted C (fst (Execute w trace s)).
Proof.
  intros Hg Hc.
  destruct (Execute_keeps w trace s) as [_ Ha]. cbn in Ha. rewrite Ha in Hg.
  destruct (Execute_gated w trace s Hg Hc) as (candidate & w1 & _ & _ & Hacc).
  exists w1, trace, candidate. exact Hacc.
Qed.

(** ** The loop *)

Lemma loop_step_terminated (r : Run W) :
  status_of (session r) <> None -> loop_step r = r.
Proof.
  intros Hs. unfold Orchestrator.loop_step.
  destruct (status_of (session r)); [reflexivity|congruence].
Qed.

Lemma iterate_plus (n k : nat) (r : Run W) :
  iterate (n + k) r = iterate k (iterate n r).
Proof. revert r. induction n as [|n IH]; intros r; cbn; [reflexivity|apply IH]. Qed.

Lemma iterate_terminated (n : nat) (r : Run W) :
  status_of (session r) <> None -> iterate n r = r.
Proof.
  intros Hs. induction n as [|n IH]; cbn; [reflexivity|].
  rewrite loop_step_terminated by assumption. exact IH.
Qed.

Lemma iterate_settled (n m : nat) (r : Run W) :
  status_of (session (iterate n r)) <> None -> (n <= m)%nat ->
  iterate m r = iterate n r.
Proof.
  intros Hs Hle. replace m with (n + (m - n))%nat by lia.
  rewrite iterate_plus. apply iterate_terminated. exact Hs.
Qed.

(** A property of the Steps of a run that the loop maintains when new
    Steps have it, retrying keeps it, and executed Steps have it. *)
Lemma loop_step_steps (P : Step -> Prop) (r : Run W) :
  (forall trace a d i, P (new_step trace a d i)) ->
  (forall w trace s,
      P s ->
      let s' := fst (Execute w trace s) in
      P s' /\
      (forall k, error s' = Some k ->
                 step_failed s' && ShouldRetry cfg s' (attempt_count s') k = true ->
                 P (retried s))) ->
  Forall P (all_steps r) -> Forall P (all_steps (loop_step r)).
Proof.
  intros Hnew Hexec Hall. unfold Orchestrator.loop_step.
  destruct (status_of (session r)); [exact Hall|].
  unfold all_steps in *.
  destruct (current r) as [s|] eqn:Hcur.
  - apply Forall_app in Hall as [Htrace Hs].
    apply Forall_inv in Hs.
    specialize (Hexec (world r) (steps (session r)) s Hs). cbn in Hexec.
    destruct Hexec as [Hs' Hretry].
    destruct (Execute (world r) (steps (session r)) s) as [s' w] eqn:He.
    cbn in Hs', Hretry.
    assert (Hcommit : Forall P (steps (session (commit C cfg r w s')) ++
                                match current (commit C cfg r w s') with
                                | Some c => [c]
                                | None => []
                                end)).
    { cbn. rewrite app_nil_r. apply Forall_app. split; [assumption|].
      constructor; [assumption|constructor]. }
    destruct (error s') as [k|]; [|exact Hcommit].
    destruct (step_failed s' && ShouldRetry cfg s' (attempt_count s') k) eqn:Hr;
      [|exact Hcommit].
    cbn. apply Forall_app. split; [assumption|].
    constructor; [|constructor]. apply (Hretry k); [reflexivity|exact Hr].
  - rewrite app_nil_r in Hall.
    destruct (cancel_requested C (world r)); [cbn; rewrite app_nil_r; exact Hall|].
    destruct (planner_next_step C (world r) (messages (session r)) (steps (session r)))
      as [[[a d i|]|] w]; cbn; try (rewrite app_nil_r; exact Hall).
    + destruct (non_progress S (steps (session r)) a i); cbn.
      * rewrite app_nil_r. exact Hall.
      * apply Forall_app. split; [assumption|]. constructor; [apply Hnew|constructor].
    + destruct (ends_with_respond (steps (session r))); cbn;
        rewrite app_nil_r; exact Hall.
Qed.

Lemma loop_step_attempts (r : Run W) :
  attempts_bounded cfg r -> attempts_bounded cfg (loop_step r).
Proof.
  unfold attempts_bounded. apply loop_step_steps.
  - intros trace a d i. cbn. lia.
  - intros w trace s Hs. destruct (Execute_keeps w trace s) as [Ha _].
    cbn in *. split; [lia|].
    intros k _ Hr. apply andb_prop in Hr as [_ Hr].
    unfold ShouldRetry in Hr. apply andb_prop in Hr as [_ Hr].
    apply Nat.ltb_lt in Hr. lia.
Qed.

Lemma loop_step_gate (r : Run W) :
  gate_respected C r -> gate_respected C (loop_step r).
Proof.
  unfold gate_respected. apply loop_step_steps.
  - intros trace a d i _ Hc. discriminate Hc.
  - intros w trace s Hs. cbn. split.
    + apply Execute_accepted.
    + intros k _ _. exact Hs.
Qed.

Lemma iterate_succ (n : nat) (r : Run W) :
  iterate (Datatypes.S n) r = loop_step (iterate n r).
Proof.
  replace (Datatypes.S n) with (n + 1)%nat by lia. rewrite iterate_plus. reflexivity.
Qed.

Lemma iterate_invariant (P : Run W -> Prop) (r : Run W) (n : nat) :
  (forall x, P x -> P (loop_step x)) -> P r -> P (iterate n r).
Proof.
  intros Hstep Hr. induction n as [|n IH]; [exact Hr|].
  rewrite iterate_succ. apply Hstep, IH.
Qed.

Lemma open_session_steps (sid : nat) (history : list (string * string)) (w : W) :
  all_steps (open_session sid history w) = [].
Proof. reflexivity. Qed.

(** C2: at every point of every run, each Step of the trace and the Step
    being executed have an [attempt_count] of at most the retry ceiling. *)
Theorem C2_attempts_within_retry_ceiling
    (sid : nat) (history : list (string * string)) (w0 : W) (n : nat) :
  Forall (fun s => (attempt_count s <= retry_ceiling cfg)%nat)
         (all_steps (iterate n (open_session sid history w0))).
Proof.
  apply (iterate_invariant (attempts_bounded cfg)).
  - apply loop_step_attempts.
  - constructor.
Qed.

(** C3: an attempt of the Step Executor on an [act] or [respond] Step ends
    [completed] only if the handler's output was passed to the Guardrail
    Gate and the verdict was [allow], the output being committed, or
    [modify], the replacement being committed; and at every point of every
    run each completed [act] or [respond] Step holds an output that the
    gate accepted in that way. *)
Theorem C3_completed_only_through_the_gate :
  (forall (w : W) (trace : list Step) (s : Step),
      gated (action_type s) = true ->
      step_completed (fst (Execute w trace s)) = true ->
      exists candidate w1,
        dispatch C w trace s = (inl candidate, w1) /\
        accepted_by (fst (guardrail_policy_evaluate C w1 candidate trace))
                    candidate (output_data (fst (Execute w trace s)))) /\
  (forall (sid : nat) (history : list (string * string)) (w0 : W) (n : nat) (s : Step),
      In s (all_steps (iterate n (open_session sid history w0))) ->
      action_type s = act \/ action_type s = respond ->
      status s = StepStatus.completed ->
      gate_accepted C s).
Proof.
  split.
  - intros w trace s Hg Hc.
    destruct (Execute_gated w trace s Hg Hc) as (candidate & w1 & Hd & _ & Hacc).
    exists candidate, w1. split; assumption.
  - intros sid history w0 n s Hin Ha Hst.
    assert (Hall : gate_respected C (iterate n (open_session sid history w0))).
    { apply (iterate_invariant (gate_respected C)).
      - apply loop_step_gate.
      - constructor. }
    unfold gate_respected in Hall. rewrite Forall_forall in Hall.
    apply Hall.
    + apply list_elem_of_In. exact Hin.
    + destruct Ha as [-> | ->]; reflexivity.
    + unfold step_completed. rewrite Hst. reflexivity.
Qed.

(** C4: when the loop asks the Planner at a point of a run and the Planner
    signals [Done], the run stops there with its trace unchanged; the
    Session is [completed] if the last Step of the trace is a completed
    [respond] and [failed] otherwise, so it is [completed] exactly when the
    last Step is a completed [respond]. *)
Theorem C4_done_requires_a_successful_respond
    (sid : nat) (history : list (string * string)) (w0 : W) (n m : nat) :
  let r := iterate n (open_session sid history w0) in
  let r' := iterate m (open_session sid history w0) in
  status_of (session r) = None ->
  current r = None ->
  cancel_requested C (world r) = false ->
  fst (planner_next_step C (world r) (messages (session r)) (steps (session r)))
    = Some Done ->
  (n < m)%nat ->
  steps (session r') = steps (session r) /\
  status_of (session r') =
    Some (if ends_with_respond (steps (session r))
          then SessionStatus.completed else SessionStatus.failed) /\
  (status_of (session r') = Some SessionStatus.completed <->
   exists last_step,
     last (steps (session r)) = Some last_step /\
     action_type last_step = respond /\
     status last_step = StepStatus.completed) /\
  (ends_with_respond (steps (session r)) = false ->
   status_of (session r') = Some SessionStatus.failed).
Proof.
  intros r r' Hrun Hcur Hcancel Hdone Hlt.
  assert (Hnext : steps (session (loop_step r)) = steps (session r) /\
                  status_of (session (loop_step r)) =
                    Some (if ends_with_respond (steps (session r))
                          then SessionStatus.completed else SessionStatus.failed)).
  { unfold Orchestrator.loop_step. rewrite Hrun, Hcur, Hcancel.
    destruct (planner_next_step C (world r) (messages (session r)) (steps (session r)))
      as [p w]. cbn in Hdone. subst p.
    destruct (ends_with_respond (steps (session r))); split; reflexivity. }
  assert (Hr' : r' = loop_step r).
  { unfold r', r. rewrite <- iterate_succ. apply iterate_settled; [|lia].
    rewrite iterate_succ. fold r. destruct Hnext as [_ ->]. discriminate. }
  rewrite Hr'. destruct Hnext as [Hsteps Hstatus].
  split; [exact Hsteps|]. split; [exact Hstatus|]. split.
  - rewrite Hstatus. unfold ends_with_respond.
    destruct (last (steps (session r))) as [p|]; [|split; [discriminate|]].
    + unfold is_respond, step_completed. split.
      * intros H. exists p. split; [reflexivity|].
        destruct (action_type p), (status p); cbn in H; try discriminate; now split.
      * intros (p' & [= <-] & -> & ->). reflexivity.
    + intros (p' & Hp & _). discriminate.
  - rewrite Hstatus. intros ->. reflexivity.
Qed.

(** ** Termination *)

Lemma fuel_positive (c L R a : nat) :
  (L < c)%nat -> (a <= R)%nat -> (0 < (c - L) * (R + 2) - (1 + a))%nat.
Proof.
  intros HL Ha. replace (c - L)%nat with (Datatypes.S (c - L - 1)) by lia.
  rewrite Nat.mul_succ_l. lia.
Qed.

Lemma fuel_after_commit (c L R a : nat) :
  (L < c)%nat -> (a <= R)%nat ->
  ((c - (L + 1)) * (R + 2) < (c - L) * (R + 2) - (1 + a))%nat.
Proof.
  intros HL Ha. replace (c - L)%nat with (Datatypes.S (c - (L + 1))) by lia.
  rewrite Nat.mul_succ_l. lia.
Qed.

Lemma fuel_at_rest (c L R : nat) :
  (L < c)%nat -> (R + 2 <= (c - L) * (R + 2))%nat.
Proof.
  intros HL. replace (c - L)%nat with (Datatypes.S (c - L - 1)) by lia.
  rewrite Nat.mul_succ_l. generalize ((c - L - 1) * (R + 2))%nat. intros x. lia.
Qed.

Lemma ShouldHalt_continue (trace : list Step) (elapsed : nat) :
  trace <> [] -> ShouldHalt trace elapsed = None ->
  (length trace < step_ceiling cfg)%nat.
Proof.
  intros Hne. unfold Orchestrator.ShouldHalt.
  destruct (last trace) as [p|] eqn:Hlast.
  - destruct (step_failed p); [discriminate|].
    destruct (verify_denies p); [discriminate|].
    destruct (time_budget cfg <? elapsed)%nat; [discriminate|].
    destruct (step_ceiling cfg <=? length trace)%nat eqn:Hc; [discriminate|].
    intros _. apply Nat.leb_gt in Hc. exact Hc.
  - apply last_None in Hlast. contradiction.
Qed.

(** A transition of a run that has not terminated keeps it in bounds and
    uses up fuel. *)
Lemma loop_step_progress (r : Run W) :
  in_bounds cfg r -> status_of (session r) = None ->
  in_bounds cfg (loop_step r) /\
  (fuel_left cfg (loop_step r) < fuel_left cfg r)%nat.
Proof.
  intros (Hcur & Hroom & Hlen & Hatt) Hrun.
  specialize (Hroom Hrun).
  pose proof (loop_step_attempts r Hatt) as Hatt'.
  revert Hatt'. unfold fuel_left at 2. rewrite Hrun.
  unfold Orchestrator.loop_step. rewrite Hrun.
  destruct (current r) as [s|] eqn:Hc.
  - assert (Ha : (attempt_count s <= retry_ceiling cfg)%nat).
    { unfold attempts_bounded, all_steps in Hatt. rewrite Hc in Hatt.
      apply Forall_app in Hatt as [_ Hs]. apply Forall_inv in Hs. exact Hs. }
    pose proof (Execute_keeps (world r) (steps (session r)) s) as [Hkeep _].
    destruct (Execute (world r) (steps (session r)) s) as [s' w]. cbn in Hkeep.
    assert (Hcommit :
      attempts_bounded cfg (commit C cfg r w s') ->
      in_bounds cfg (commit C cfg r w s') /\
      (fuel_left cfg (commit C cfg r w s')
       < (step_ceiling cfg - length (steps (session r))) * (retry_ceiling cfg + 2)
         - (1 + attempt_count s))%nat).
    { intros Hatt'. unfold in_bounds, fuel_left. cbn.
      rewrite length_app. cbn.
      destruct (ShouldHalt (steps (session r) ++ [s'])
                  (clock_now C w - started r)) as [why|] eqn:Hh.
      - repeat split; try congruence; try lia; try assumption;
          try (apply fuel_positive; assumption).
      - apply ShouldHalt_continue in Hh.
        + rewrite length_app in Hh. cbn in Hh.
          repeat split; try congruence; try lia; try assumption;
            try (rewrite Nat.sub_0_r; apply fuel_after_commit; assumption).
        + intros He. apply app_eq_nil in He as [_ He]. discriminate. }
    destruct (error s') as [k|]; [|exact Hcommit].
    destruct (step_failed s' && ShouldRetry cfg s' (attempt_count s') k) eqn:Hr;
      [|exact Hcommit].
    intros Hatt'. apply andb_prop in Hr as [_ Hr]. unfold ShouldRetry in Hr.
    apply andb_prop in Hr as [_ Hr]. apply Nat.ltb_lt in Hr. rewrite Hkeep in Hr.
    unfold in_bounds, fuel_left. cbn. rewrite Hrun.
    repeat split; try congruence; try lia; try assumption.
    pose proof (fuel_at_rest (step_ceiling cfg) (length (steps (session r)))
                  (retry_ceiling cfg) Hroom). lia.
  - pose proof (fuel_at_rest (step_ceiling cfg) (length (steps (session r)))
                  (retry_ceiling cfg) Hroom) as Hfuel.
    assert (Hfinish : forall w st why,
      attempts_bounded cfg (finish r w st why) ->
      in_bounds cfg (finish r w st why) /\
      (fuel_left cfg (finish r w st why)
       < (step_ceiling cfg - length (steps (session r))) * (retry_ceiling cfg + 2) - 0)%nat).
    { intros w st why Hatt'. unfold in_bounds, fuel_left. cbn.
      repeat split; try congruence; try lia; try assumption. }
    destruct (cancel_requested C (world r)); [apply Hfinish|].
    destruct (planner_next_step C (world r) (messages (session r)) (steps (session r)))
      as [[[a d i|]|] w]; try apply Hfinish.
    + destruct (non_progress S (steps (session r)) a i); [apply Hfinish|].
      intros Hatt'. unfold in_bounds, fuel_left. cbn. rewrite Hrun.
      repeat split; try congruence; try lia; try assumption.
    + destruct (ends_with_respond (steps (session r))); apply Hfinish.
Qed.

Lemma in_bounds_terminated (r : Run W) :
  in_bounds cfg r -> status_of (session r) <> None -> terminated r.
Proof.
  intros (Hcur & _) Hs. split; [exact Hs|].
  destruct (current r) as [s|]; [|reflexivity].
  exfalso. apply Hs, Hcur. discriminate.
Qed.

Lemma terminates_within (k : nat) (r : Run W) :
  in_bounds cfg r -> (fuel_left cfg r <= k)%nat ->
  exists n, (n <= k)%nat /\
            status_of (session (iterate n r)) <> None /\
            in_bounds cfg (iterate n r).
Proof.
  revert r. induction k as [|k IH]; intros r Hb Hf.
  - exists 0%nat. cbn. split; [lia|]. split; [|exact Hb].
    intros Hrun. destruct (loop_step_progress r Hb Hrun) as [_ Hlt]. lia.
  - destruct (status_of (session r)) as [st|] eqn:Hrun.
    + exists 0%nat. cbn. split; [lia|]. split; [congruence|exact Hb].
    + destruct (loop_step_progress r Hb Hrun) as [Hb' Hlt].
      destruct (IH (loop_step r) Hb') as (n & Hn & Hs & Hbn); [lia|].
      exists (Datatypes.S n). cbn. split; [lia|]. split; assumption.
Qed.

(** ** A Planner that never stops *)

Lemma restless_round (r : Run W) :
  always_proposes C -> untroubled C S cfg ->
  status_of (session r) = None -> current r = None ->
  (forall p, last (steps (session r)) = Some p -> step_failed p = false) ->
  let r2 := loop_step (loop_step r) in
  length (steps (session r2)) = (length (steps (session r)) + 1)%nat /\
  current r2 = None /\
  (forall p, last (steps (session r2)) = Some p -> step_failed p = false) /\
  if (step_ceiling cfg <=? length (steps (session r)) + 1)%nat
  then status_of (session r2) = Some SessionStatus.halted /\
       halt_reason (session r2) = Some "step_ceiling"
  else status_of (session r2) = None.
Proof.
  intros Hprop (Hexec & Hcancel & Hclock) Hrun Hcur Hlast.
  destruct (Hprop (world r) (messages (session r)) (steps (session r)))
    as (a & d & i & w1 & Hplan).
  assert (Hfirst : loop_step r = with_current r w1 (new_step (steps (session r)) a d i)).
  { unfold Orchestrator.loop_step. rewrite Hrun, Hcur, Hcancel, Hplan.
    unfold non_progress. destruct (last (steps (session r))) as [p|] eqn:Hp.
    - rewrite (Hlast p eq_refl). reflexivity.
    - reflexivity. }
  cbn zeta. rewrite Hfirst. unfold Orchestrator.loop_step. cbn. rewrite Hrun.
  destruct (Hexec w1 (steps (session r)) (new_step (steps (session r)) a d i))
    as [Hdone Hallow].
  destruct (Execute w1 (steps (session r)) (new_step (steps (session r)) a d i))
    as [s' w2]. cbn in Hdone, Hallow.
  assert (Hok : step_failed s' = false).
  { unfold step_completed in Hdone. unfold step_failed.
    destruct (status s'); congruence. }
  assert (Hhalt : ShouldHalt (steps (session r) ++ [s']) (clock_now C w2 - started r) =
                  if (step_ceiling cfg <=? length (steps (session r)) + 1)%nat
                  then Some "step_ceiling" else None).
  { unfold Orchestrator.ShouldHalt. rewrite last_snoc, Hok, Hallow, length_app.
    replace (time_budget cfg <? clock_now C w2 - started r)%nat with false.
    - reflexivity.
    - symmetry. apply Nat.ltb_ge. specialize (Hclock w2). lia. }
  assert (Hcommit :
    let r2 := commit C cfg r w2 s' in
    length (steps (session r2)) = (length (steps (session r)) + 1)%nat /\
    current r2 = None /\
    (forall p, last (steps (session r2)) = Some p -> step_failed p = false) /\
    if (step_ceiling cfg <=? length (steps (session r)) + 1)%nat
    then status_of (session r2) = Some SessionStatus.halted /\
         halt_reason (session r2) = Some "step_ceiling"
    else status_of (session r2) = None).
  { cbn. rewrite Hhalt, length_app. cbn. split; [reflexivity|]. split; [reflexivity|].
    split.
    - intros p. rewrite last_snoc. intros [= <-]. exact Hok.
    - destruct (step_ceiling cfg <=? length (steps (session r)) + 1)%nat;
        [split|]; reflexivity. }
  destruct (error s') as [k|]; [|exact Hcommit].
  rewrite Hok. exact Hcommit.
Qed.

Lemma restless_halts (k : nat) (r : Run W) :
  always_proposes C -> untroubled C S cfg ->
  status_of (session r) = None -> current r = None ->
  (forall p, last (steps (session r)) = Some p -> step_failed p = false) ->
  (step_ceiling cfg - length (steps (session r)) = Datatypes.S k)%nat ->
  exists n,
    status_of (session (iterate n r)) = Some SessionStatus.halted /\
    halt_reason (session (iterate n r)) = Some "step_ceiling" /\
    length (steps (session (iterate n r))) = step_ceiling cfg.
Proof.
  intros Hprop Hcalm. revert r.
  induction k as [|k IH]; intros r Hrun Hcur Hlast Hleft;
    destruct (restless_round r Hprop Hcalm Hrun Hcur Hlast) as (Hlen & Hcur2 & Hlast2 & Hst).
  - exists 2%nat. cbn.
    replace (step_ceiling cfg <=? length (steps (session r)) + 1)%nat with true in Hst
      by (symmetry; apply Nat.leb_le; lia).
    destruct Hst as [Hs Hw]. split; [exact Hs|]. split; [exact Hw|]. lia.
  - replace (step_ceiling cfg <=? length (steps (session r)) + 1)%nat with false in Hst
      by (symmetry; apply Nat.leb_gt; lia).
    destruct (IH (loop_step (loop_step r)) Hst Hcur2 Hlast2) as (n & Hn); [lia|].
    exists (2 + n)%nat. rewrite iterate_plus. exact Hn.
Qed.

(** C1: with a step ceiling of at least one, every run, whatever the
    collaborators do, reaches a terminal status ([completed], [halted] or
    [failed]) after finitely many transitions, with at most step-ceiling
    many Steps in its trace, and stays there; and when the Planner always
    proposes a Step while every attempt succeeds and nothing else halts
    the run, the Session ends [halted] with halt reason [step_ceiling] and
    exactly step-ceiling many Steps: 10 for a ceiling of 10. *)
Theorem C1_loop_halts_within_step_ceiling
    (sid : nat) (history : list (string * string)) (w0 : W) :
  (1 <= step_ceiling cfg)%nat ->
  (exists n,
      (n <= step_ceiling cfg * (retry_ceiling cfg + 2))%nat /\
      let r := iterate n (open_session sid history w0) in
      (status_of (session r) = Some SessionStatus.completed \/
       status_of (session r) = Some SessionStatus.halted \/
       status_of (session r) = Some SessionStatus.failed) /\
      current r = None /\
      (length (steps (session r)) <= step_ceiling cfg)%nat /\
      forall m, (n <= m)%nat -> iterate m (open_session sid history w0) = r) /\
  (always_proposes C -> untroubled C S cfg ->
   exists n,
     let r := iterate n (open_session sid history w0) in
     status_of (session r) = Some SessionStatus.halted /\
     halt_reason (session r) = Some "step_ceiling" /\
     length (steps (session r)) = step_ceiling cfg /\
     (step_ceiling cfg = 10%nat -> length (steps (session r)) = 10%nat) /\
     forall m, (n <= m)%nat -> iterate m (open_session sid history w0) = r).
Proof.
  intros Hceiling. split.
  - assert (Hb : in_bounds cfg (open_session sid history w0)).
    { unfold in_bounds. cbn. repeat split; try congruence; try lia. constructor. }
    destruct (terminates_within (step_ceiling cfg * (retry_ceiling cfg + 2))
                (open_session sid history w0) Hb) as (n & Hn & Hs & Hbn).
    { unfold fuel_left. cbn. lia. }
    exists n. split; [exact Hn|]. cbn zeta.
    destruct (in_bounds_terminated _ Hbn Hs) as [_ Hcur].
    split; [|split; [exact Hcur|split]].
    + destruct (status_of (session (iterate n (open_session sid history w0))))
        as [[| |]|]; auto. congruence.
    + apply Hbn.
    + intros m Hm. apply iterate_settled; assumption.
  - intros Hprop Hcalm.
    destruct (restless_halts (step_ceiling cfg - 1) (open_session sid history w0)
                Hprop Hcalm) as (n & Hs & Hw & Hlen); try reflexivity.
    + intros p. cbn. discriminate.
    + cbn. lia.
    + exists n. cbn zeta. split; [exact Hs|]. split; [exact Hw|].
      split; [exact Hlen|]. split; [congruence|].
      intros m Hm. apply iterate_settled; [|exact Hm]. rewrite Hs. discriminate.
Qed.

End OrchestratorFacts.

Section OrchestratorExamples.
Import Js Orchestrator.

Local Abbreviation run_stub planner n :=
  (iterate (stubs planner) accept_all defaults n
     (open_session (stubs planner) 0 question tt)).

(** Scenario A: [plan], [respond], [Done]: completed with two Steps. *)
Example scenario_A :
  let r := run_stub direct_answer 5 in
  status_of (session r) = Some SessionStatus.completed /\
  map action_type (steps (session r)) = [plan; respond] /\
  map index (steps (session r)) = [0; 1]%nat /\
  (output_data <$> last (steps (session r))) = Some (Some (reply "4")).
Proof. repeat split. Qed.

(** Scenario B: two timeouts, then success, with retry ceiling 2. *)
Example scenario_B :
  let r := iterate flaky accept_all defaults 4 (open_session flaky 0 question 0%nat) in
  map (fun s => (action_type s, status s, attempt_count s)) (steps (session r))
  = [(retrieve, StepStatus.completed, 2%nat)].
Proof. reflexivity. Qed.

(** Scenario C: the guardrail denies the [act] Step. *)
Example scenario_C :
  let r := iterate guarded_mail accept_all defaults 9
             (open_session guarded_mail 0 question tt) in
  status_of (session r) = Some SessionStatus.halted /\
  halt_reason (session r) = Some "guardrail_denied" /\
  map (fun s => (action_type s, status s, error s)) (steps (session r))
  = [(act, StepStatus.failed, Some guardrail_denied)].
Proof. repeat split. Qed.

(** Scenario D: the Planner never stops, the ceiling is 10. *)
Example scenario_D :
  let r := run_stub restless 50 in
  status_of (session r) = Some SessionStatus.halted /\
  halt_reason (session r) = Some "step_ceiling" /\
  length (steps (session r)) = 10%nat.
Proof. repeat split. Qed.

Lemma stubs_untroubled (planner : list Step -> option Plan) :
  untroubled (stubs planner) accept_all defaults.
Proof.
  split; [|split].
  - intros w trace s. unfold Execute, dispatch, gate, verify_denies. cbn.
    destruct (action_type s) eqn:Ha; cbn; rewrite ?Ha; split; reflexivity.
  - reflexivity.
  - intros w. cbn. lia.
Qed.

Lemma restless_always_proposes : always_proposes (stubs restless).
Proof. intros w history trace. cbn. unfold restless. eauto. Qed.

Lemma C1_witness :
  (1 <= step_ceiling defaults)%nat /\
  exists n,
    let r := run_stub restless n in
    status_of (session r) = Some SessionStatus.halted /\
    halt_reason (session r) = Some "step_ceiling" /\
    length (steps (session r)) = 10%nat.
Proof.
  assert (H : (1 <= step_ceiling defaults)%nat) by (cbn; lia).
  split; [exact H|].
  destruct (proj2 (C1_loop_halts_within_step_ceiling (stubs restless) accept_all
                     defaults 0%nat question tt H)
              restless_always_proposes (stubs_untroubled restless))
    as (n & Hs & Hw & Hlen & _).
  exists n. split; [exact Hs|]. split; [exact Hw|exact Hlen].
Defined.

Lemma C3_witness :
  let r := run_stub direct_answer 5 in
  exists s,
    last (steps (session r)) = Some s /\
    action_type s = respond /\ status s = StepStatus.completed /\
    gate_accepted (stubs direct_answer) s.
Proof.
  eexists. split; [reflexivity|]. split; [reflexivity|]. split; [reflexivity|].
  apply (proj2 (C3_completed_only_through_the_gate (stubs direct_answer)
                  accept_all defaults) 0%nat question tt 5%nat).
  - cbn. right. left. reflexivity.
  - right. reflexivity.
  - reflexivity.
Defined.

Lemma C4_witness :
  let r := run_stub direct_answer 4 in
  status_of (session r) = None /\ current r = None /\
  cancel_requested (stubs direct_answer) (world r) = false /\
  fst (planner_next_step (stubs direct_answer) (world r) (messages (session r))
         (steps (session r))) = Some Done /\
  (4 < 7)%nat /\
  status_of (session (run_stub direct_answer 7)) = Some SessionStatus.completed.
Proof.
  assert (H1 : status_of (session (run_stub direct_answer 4)) = None) by reflexivity.
  assert (H2 : current (run_stub direct_answer 4) = None) by reflexivity.
  assert (H3 : cancel_requested (stubs direct_answer)
                 (world (run_stub direct_answer 4)) = false) by reflexivity.
  assert (H4 : fst (planner_next_step (stubs direct_answer)
                      (world (run_stub direct_answer 4))
                      (messages (session (run_stub direct_answer 4)))
                      (steps (session (run_stub direct_answer 4)))) = Some Done)
    by reflexivity.
  assert (H5 : (4 < 7)%nat) by lia.
  repeat (split; [assumption|]).
  exact (proj1 (proj2 (C4_done_requires_a_successful_respond (stubs direct_answer)
                         accept_all defaults 0%nat question tt 4 7 H1 H2 H3 H4 H5))).
Defined.

End OrchestratorExamples.

(* ===================================================================== *)
(** * Further properties of the chat widget                                *)
(* ===================================================================== *)

Section WidgetConduct.
Import Js Widget.

Variable null_read_message : string -> string.
Variable coerced_positive : JSON -> bool.

Local Abbreviation resume := (sendMessage_resume null_read_message).
Local Abbreviation react := (Widget.react null_read_message).
Local Abbreviation run := (Widget.run null_read_message).
Local Abbreviation settled o now ts :=
  (match try_block null_read_message o with
   | inl data => assistantMessage data now ts
   | inr message => errorMessage message now ts
   end).

(** What an event does to the message list: nothing, or it appends the
    typed message, or it appends the answer to the oldest request. *)
Lemma react_appends (w : World) (e : Event) :
  messages (app (react w e)) = messages (app w) \/
  (exists now ts,
      event_now e = Some now /\ send_blocked (app w) = false /\
      sent (react w e) <> sent w /\
      messages (app (react w e)) = messages (app w) ++ [userMessage (app w) now ts]) \/
  (exists o now ts,
      e = EvSettle o now ts /\ inflight w <> [] /\
      messages (app (react w e)) = messages (app w) ++ [settled o now ts]).
Proof.
  assert (Hsend : forall now ts,
    messages (app (issue w (sendMessage (app w) now ts))) = messages (app w) \/
    (send_blocked (app w) = false /\
     sent (issue w (sendMessage (app w) now ts)) <> sent w /\
     messages (app (issue w (sendMessage (app w) now ts)))
     = messages (app w) ++ [userMessage (app w) now ts])).
  { intros now ts. unfold sendMessage.
    destruct (send_blocked (app w)); cbn; [left; reflexivity|].
    right. split; [reflexivity|]. split; [|reflexivity].
    intros He. apply (f_equal (@length Request)) in He.
    rewrite length_app in He. cbn in He. lia. }
  destruct e as [text|now ts|key shiftKey now ts|messageId|o now ts]; cbn.
  - left. reflexivity.
  - destruct (Hsend now ts) as [H | H]; [left; exact H|].
    right. left. exists now, ts. split; [reflexivity|exact H].
  - unfold handleKeyPress.
    destruct (String.eqb key "Enter" && negb shiftKey); [|left; reflexivity].
    destruct (Hsend now ts) as [H | H]; [left; exact H|].
    right. left. exists now, ts. split; [reflexivity|exact H].
  - left. reflexivity.
  - destruct (inflight w) as [|req rest] eqn:Hin; [left; reflexivity|].
    right. right. exists o, now, ts. split; [reflexivity|]. split; [discriminate|].
    cbn. apply resume_messages.
Qed.

Lemma toggle_lookup (st : AppState) (i j : Z) :
  default false (showSteps (toggleSteps st i) !! j) =
  if decide (i = j) then negb (default false (showSteps st !! j))
  else default false (showSteps st !! j).
Proof.
  cbn. destruct (decide (i = j)) as [<- | Hne].
  - rewrite lookup_insert_eq. reflexivity.
  - rewrite lookup_insert_ne by exact Hne. reflexivity.
Qed.

(** X1: a click on the steps button of a message flips whether its steps
    are open, a never-clicked message counting as closed; two clicks put
    every message back where it was; and the clicks touch nothing else of
    the state. *)
Theorem toggleSteps_flips_and_restores (st : AppState) (i : Z) :
  default false (showSteps (toggleSteps st i) !! i)
    = negb (default false (showSteps st !! i)) /\
  (forall j : Z,
      default false (showSteps (toggleSteps (toggleSteps st i) i) !! j)
      = default false (showSteps st !! j)) /\
  (forall m : Message,
      toggle_view coerced_positive (showSteps (toggleSteps (toggleSteps st i) i)) m
      = toggle_view coerced_positive (showSteps st) m) /\
  messages (toggleSteps st i) = messages st /\
  inputMessage (toggleSteps st i) = inputMessage st /\
  isLoading (toggleSteps st i) = isLoading st.
Proof.
  assert (Htwice : forall j : Z,
    default false (showSteps (toggleSteps (toggleSteps st i) i) !! j)
    = default false (showSteps st !! j)).
  { intros j. rewrite !toggle_lookup.
    destruct (decide (i = j)); [apply negb_involutive|reflexivity]. }
  split.
  - rewrite toggle_lookup. destruct (decide (i = i)); [reflexivity|congruence].
  - split; [exact Htwice|]. split; [|repeat split].
    intros m. unfold toggle_view. rewrite Htwice. reflexivity.
Qed.

(** X2: a click on the steps button of one message leaves the rendering of
    every message with another id as it was. *)
Theorem toggleSteps_leaves_other_messages (st : AppState) (i : Z) (m : Message) :
  id m <> i ->
  message_view coerced_positive (showSteps (toggleSteps st i)) m
  = message_view coerced_positive (showSteps st) m.
Proof.
  intros Hne. unfold message_view, children_draw, panel_view, toggle_view.
  cbn [showSteps toggleSteps].
  rewrite lookup_insert_ne by congruence. reflexivity.
Qed.

(** X3: the Send button is disabled exactly when [sendMessage] would
    return at its guard, and the input exactly while loading: a click on an
    enabled button issues a request, clears the input and starts loading,
    and a call that gets past a disabled button changes nothing; Enter
    without Shift does what the click does, and no other key press does
    anything. *)
Theorem send_button_agrees_with_guard (st : AppState) (view : AppView) :
  render coerced_positive st = Some view ->
  av_send_disabled view = send_blocked st /\
  av_input_disabled view = isLoading st /\
  (av_send_disabled view = false ->
   forall now ts, exists st' req,
     sendMessage st now ts = (st', Some req) /\
     isLoading st' = true /\ inputMessage st' = "" /\
     messages st' = messages st ++ [userMessage st now ts]) /\
  (av_send_disabled view = true ->
   forall now ts, sendMessage st now ts = (st, None)) /\
  (forall key shiftKey now ts,
      handleKeyPress st key shiftKey now ts =
      if decide (key = "Enter" /\ shiftKey = false)
      then sendMessage st now ts else (st, None)).
Proof.
  intros Hr.
  assert (Hd : av_send_disabled view = send_blocked st /\
               av_input_disabled view = isLoading st).
  { unfold render in Hr. destruct (mapM _ (messages st)) as [views|]; [|discriminate].
    cbn in Hr. injection Hr as <-. cbn. split; [apply orb_comm|reflexivity]. }
  destruct Hd as [Hd Hi]. rewrite Hd.
  split; [reflexivity|]. split; [exact Hi|]. split; [|split].
  - intros Hb now ts. unfold sendMessage. rewrite Hb.
    eexists. eexists. repeat split.
  - intros Hb now ts. apply sendMessage_blocked. exact Hb.
  - intros key shiftKey now ts. unfold handleKeyPress.
    destruct (String.eqb key "Enter") eqn:Hk; destruct shiftKey; cbn;
      destruct (decide _) as [[Hkey Hshift] | Hno]; try reflexivity; try discriminate.
    + exfalso. apply Hno. split; [apply String.eqb_eq; exact Hk|reflexivity].
    + apply String.eqb_neq in Hk. contradiction.
Qed.

Lemma exchanges_snoc (answered : nat) :
  exchanges (Datatypes.S answered) = exchanges answered ++ ["user"; "assistant"].
Proof.
  induction answered as [|n IH]; [reflexivity|].
  change ("user" :: "assistant" :: exchanges (Datatypes.S n)
          = "user" :: "assistant" :: (exchanges n ++ ["user"; "assistant"])).
  rewrite <- IH. reflexivity.
Qed.

Lemma exchanges_length (answered : nat) :
  length (exchanges answered) = (2 * answered)%nat.
Proof. induction answered as [|n IH]; cbn in *; lia. Qed.

Lemma settled_role (o : Outcome) (now ts : Z) : role (settled o now ts) = "assistant".
Proof. destruct (try_block null_read_message o); reflexivity. Qed.

Lemma settled_id (o : Outcome) (now ts : Z) : id (settled o now ts) = (now + 1)%Z.
Proof. destruct (try_block null_read_message o); reflexivity. Qed.

Lemma idle_send_allowed (st : AppState) :
  trim (inputMessage st) <> "" -> isLoading st = false -> send_blocked st = false.
Proof.
  intros Hne Hidle. destruct (send_blocked st) eqn:Hb; [|reflexivity].
  apply send_blocked_iff in Hb as [Hb | Hb]; congruence.
Qed.

Lemma react_conversation (w : World) (e : Event) :
  consistent w ->
  (length (inflight w) <= length (sent w))%nat ->
  map role (messages (app w))
  = conversation (length (sent w) - length (inflight w)) (isLoading (app w)) ->
  (length (inflight (react w e)) <= length (sent (react w e)))%nat /\
  map role (messages (app (react w e)))
  = conversation (length (sent (react w e)) - length (inflight (react w e)))
                 (isLoading (app (react w e))).
Proof.
  intros [Hfl _ _] Hle Hroles.
  assert (Hsend : forall now ts,
    (length (inflight (issue w (sendMessage (app w) now ts)))
     <= length (sent (issue w (sendMessage (app w) now ts))))%nat /\
    map role (messages (app (issue w (sendMessage (app w) now ts))))
    = conversation
        (length (sent (issue w (sendMessage (app w) now ts)))
         - length (inflight (issue w (sendMessage (app w) now ts))))
        (isLoading (app (issue w (sendMessage (app w) now ts))))).
  { intros now ts. unfold sendMessage.
    destruct (send_blocked (app w)) eqn:Hb; cbn; [split; assumption|].
    apply send_allowed in Hb as [_ Hidle]. rewrite Hidle in Hfl, Hroles.
    rewrite !length_app, map_app, Hroles. cbn.
    replace (length (sent w) + 1 - (length (inflight w) + 1))%nat
      with (length (sent w) - length (inflight w))%nat by lia.
    split; [lia|]. unfold conversation. cbn. rewrite app_nil_r. reflexivity. }
  destruct e as [text|now ts|key shiftKey now ts|messageId|o now ts]; cbn.
  - split; assumption.
  - apply Hsend.
  - unfold handleKeyPress.
    destruct (String.eqb key "Enter" && negb shiftKey); [apply Hsend|].
    cbn. split; assumption.
  - split; assumption.
  - destruct (inflight w) as [|req rest] eqn:Hin; [rewrite Hin; split; assumption|].
    cbn [length] in Hfl, Hle. destruct (isLoading (app w)); [|discriminate].
    destruct rest; [|discriminate]. cbn [length] in Hle, Hroles.
    cbn [Widget.app Widget.inflight Widget.sent length].
    split; [lia|].
    rewrite resume_messages, resume_not_loading, map_app, Hroles.
    cbn [map]. rewrite settled_role.
    replace (length (sent w) - 0)%nat
      with (Datatypes.S (length (sent w) - 1)) by lia.
    unfold conversation. rewrite exchanges_snoc, app_nil_r.
    cbn [Datatypes.app]. rewrite <- app_assoc. reflexivity.
Qed.

Lemma run_roles (t0 : Z) (events : list Event) :
  (length (inflight (run t0 events)) <= length (sent (run t0 events)))%nat /\
  map role (messages (app (run t0 events)))
  = conversation (length (sent (run t0 events)) - length (inflight (run t0 events)))
                 (isLoading (app (run t0 events))).
Proof.
  induction events as [|e events IH] using rev_ind.
  - split; [cbn; lia|reflexivity].
  - rewrite run_snoc. destruct IH as [Hle Hroles].
    apply react_conversation; [apply run_consistent|assumption|assumption].
Qed.

Lemma run_counts (t0 : Z) (events : list Event) :
  (length (messages (app (run t0 events))) + length (inflight (run t0 events))
   = 1 + 2 * length (sent (run t0 events)))%nat.
Proof.
  destruct (run_roles t0 events) as [Hle Hroles].
  apply (f_equal (@length string)) in Hroles. rewrite length_map in Hroles.
  unfold conversation in Hroles. cbn in Hroles.
  rewrite length_app, exchanges_length in Hroles.
  destruct (run_consistent null_read_message t0 events) as [Hfl _ _].
  destruct (isLoading (app (run t0 events))); cbn in Hroles; lia.
Qed.

(** X4: the conversation always reads greeting, then question and answer
    in turn, ending on a question exactly while a request is in flight:
    every request adds one user message and every settled request one
    assistant message, so the list holds one message more than twice the
    requests made, less the one still awaited. *)
Theorem conversation_alternates (t0 : Z) (events : list Event) :
  let w := run t0 events in
  map role (messages (app w))
  = conversation (length (sent w) - length (inflight w)) (isLoading (app w)) /\
  (length (messages (app w)) + length (inflight w) = 1 + 2 * length (sent w))%nat.
Proof. split; [apply run_roles|apply run_counts]. Qed.

(** X5: no event removes, reorders or rewrites a stored message: the list
    at any moment is a prefix of the list at every later moment, and an
    event adds at most one message. *)
Theorem messages_only_grow (t0 : Z) (events more : list Event) :
  messages (app (run t0 events)) `prefix_of` messages (app (run t0 (events ++ more))) /\
  (length (messages (app (run t0 (events ++ more))))
   <= length (messages (app (run t0 events))) + length more)%nat.
Proof.
  induction more as [|e more IH] using rev_ind.
  - rewrite app_nil_r. split; [reflexivity|lia].
  - rewrite app_assoc, run_snoc, length_app. cbn. destruct IH as [Hpre Hlen].
    destruct (react_appends (run t0 (events ++ more)) e)
      as [-> | [(now & ts & _ & _ & _ & ->) | (o & now & ts & _ & _ & ->)]].
    + split; [exact Hpre|lia].
    + split; [apply prefix_app_r; exact Hpre|rewrite length_app; cbn; lia].
    + split; [apply prefix_app_r; exact Hpre|rewrite length_app; cbn; lia].
Qed.

Lemma ids_stay_distinct (events : list Event) :
  forall (w : World) (lo : Z),
    NoDup (map id (messages (app w))) ->
    Forall (fun m => (id m <= lo)%Z) (messages (app w)) ->
    spaced lo events ->
    NoDup (map id (messages (app (fold_left react events w)))).
Proof.
  induction events as [|e events IH]; intros w lo Hnd Hlo Hsp; [exact Hnd|].
  cbn [fold_left].
  assert (Hfresh : forall (m : Message) (now : Z),
    (lo < now)%Z -> (now <= id m <= now + 1)%Z ->
    NoDup (map id (messages (app w) ++ [m])) /\
    Forall (fun x => (id x <= now + 1)%Z) (messages (app w) ++ [m])).
  { intros m now Hnow Hm. split.
    - rewrite map_app. apply NoDup_app. split; [exact Hnd|]. split.
      + intros x Hx Hin. cbn in Hin. apply list_elem_of_singleton in Hin. subst x.
        apply list_elem_of_fmap in Hx as (m' & Heq & Hm').
        rewrite Forall_forall in Hlo. specialize (Hlo m' Hm'). lia.
      + cbn. apply NoDup_singleton.
    - apply Forall_app. split.
      + eapply Forall_impl; [exact Hlo|]. cbn. intros x Hx. lia.
      + constructor; [lia|constructor]. }
  cbn in Hsp.
  destruct (react_appends w e)
    as [Hsame | [(now & ts & Hnow & _ & _ & Hm) | (o & now & ts & -> & _ & Hm)]].
  - destruct (event_now e) as [now|].
    + destruct Hsp as [Hlt Hsp]. apply (IH _ (now + 1)%Z); rewrite ?Hsame; try assumption.
      eapply Forall_impl; [exact Hlo|]. cbn. intros x Hx. lia.
    + apply (IH _ lo); rewrite ?Hsame; assumption.
  - rewrite Hnow in Hsp. destruct Hsp as [Hlt Hsp].
    destruct (Hfresh (userMessage (app w) now ts) now Hlt) as [Hnd' Hlo'];
      [cbn; lia|].
    apply (IH _ (now + 1)%Z); rewrite ?Hm; assumption.
  - cbn in Hsp. destruct Hsp as [Hlt Hsp].
    destruct (Hfresh (settled o now ts) now Hlt) as [Hnd' Hlo'];
      [rewrite settled_id; lia|].
    apply (IH _ (now + 1)%Z); rewrite ?Hm; assumption.
Qed.

(** X6: when every clock reading taken at a send or at the settling of a
    request is more than one millisecond past the one before it, the first
    being past 1, all stored messages have different ids, so the React keys
    and the keys of [showSteps] tell the messages apart. *)
Theorem ids_distinct_when_spaced (t0 : Z) (events : list Event) :
  spaced 1 events ->
  NoDup (map id (messages (app (run t0 events)))).
Proof.
  intros Hsp. unfold Widget.run. apply (ids_stay_distinct events _ 1%Z).
  - cbn. apply NoDup_singleton.
  - constructor; [cbn; lia|constructor].
  - exact Hsp.
Qed.

(** X7: the spacing is needed: the message typed and sent one millisecond
    after a request settles gets the id of the answer just stored, whatever
    the answer was. *)
Theorem ids_collide_one_millisecond_apart
    (w : World) (o : Outcome) (now ts ts' : Z) (text : string) :
  inflight w <> [] ->
  trim text <> "" ->
  let w' := react (react (react w (EvSettle o now ts)) (EvChange text))
                  (EvClick (now + 1) ts') in
  exists answer typed,
    messages (app w') = messages (app w) ++ [answer; typed] /\
    role answer = "assistant" /\ role typed = "user" /\
    content typed = str text /\
    id answer = id typed.
Proof.
  intros Hin Hne. destruct (inflight w) as [|req rest] eqn:Hfl; [congruence|].
  cbn zeta. cbn [Widget.react]. rewrite Hfl. cbn [app inflight sent].
  unfold sendMessage. rewrite idle_send_allowed by (first [exact Hne|reflexivity]).
  cbn [issue Widget.app messages setInputMessage]. exists (settled o now ts), (userMessage
    (setInputMessage (resume (app w) o now ts) text) (now + 1) ts').
  split.
  - rewrite resume_messages, <- app_assoc. reflexivity.
  - rewrite settled_role, settled_id. repeat split.
Qed.

(** ** Rendering that does not throw, and rendering that does *)

Lemma step_view_None (step : JSON) :
  step_view step = None <->
  step = JNull \/ child_ok (get step "action_type") = false \/
  child_ok (get step "status") = false \/ child_ok (get step "description") = false.
Proof.
  unfold step_view, entry_draws.
  destruct (child_ok (get step "action_type")), (child_ok (get step "status")),
    (child_ok (get step "description")); destruct step; cbn; split; intros H;
    try discriminate; try reflexivity; auto 6;
    destruct H as [H | [H | [H | H]]]; discriminate.
Qed.

Lemma steps_view_None (entries : list JSON) :
  steps_view (arr entries) = None <->
  Exists (fun e => e = JNull \/ child_ok (get e "action_type") = false \/
                   child_ok (get e "status") = false \/
                   child_ok (get e "description") = false) entries.
Proof.
  unfold steps_view, arr. rewrite mapM_None. split; intros H;
    (eapply Exists_impl; [exact H|]); intros e; apply step_view_None.
Qed.

Lemma message_view_without_panel (shown : gmap Z bool) (m : Message) :
  panel_view coerced_positive shown m = None ->
  message_view coerced_positive shown m = None.
Proof.
  intros Hp. unfold message_view. rewrite Hp.
  destruct (children_draw coerced_positive shown m); reflexivity.
Qed.

Lemma message_view_sound (shown : gmap Z bool) (m : Message) (entries : list JSON) :
  child_ok (content m) = true -> child_ok (tokensUsed m) = true ->
  steps m = arr entries ->
  (shown !! id m = Some true -> Forall sound_entry entries) ->
  is_Some (message_view coerced_positive shown m).
Proof.
  intros Hc Ht Hs Hopen.
  unfold message_view, children_draw, toggle_view, panel_view.
  rewrite Hc, Ht, Hs, has_steps_arr.
  destruct entries as [|e rest].
  - destruct (shown !! id m) as [[|]|]; cbn; eauto.
  - cbn [andb child_ok valid_child get_prop arr default].
    destruct (shown !! id m) as [[|]|]; cbn [mbind option_bind fmap option_fmap option_map]; eauto.
    rewrite steps_view_cards by (apply Hopen; reflexivity). cbn. eauto.
Qed.

(** X8: the render function does not throw as long as every stored
    message has a content and a token count that React can draw and an
    array as its steps, the entries of which are sound (not [null], with
    an [action_type], [status] and [description] that React can draw)
    whenever the steps panel of the message is open; it then shows the
    stored messages one for one, in order, under their ids. *)
Theorem render_succeeds_on_sound_steps (st : AppState) :
  (forall m : Message,
      In m (messages st) ->
      child_ok (content m) = true /\ child_ok (tokensUsed m) = true /\
      exists entries,
        steps m = arr entries /\
        (showSteps st !! id m = Some true -> Forall sound_entry entries)) ->
  exists view,
    render coerced_positive st = Some view /\
    map mv_key (av_messages view) = map id (messages st) /\
    map mv_content (av_messages view) = map content (messages st).
Proof.
  intros Hsound.
  assert (Hall : Forall (is_Some ∘ message_view coerced_positive (showSteps st))
                        (messages st)).
  { apply Forall_forall. intros m Hm. cbn.
    destruct (Hsound m) as (Hc & Ht & entries & Hs & Hopen);
      [apply list_elem_of_In; exact Hm|].
    exact (message_view_sound _ m entries Hc Ht Hs Hopen). }
  apply mapM_is_Some_2 in Hall. destruct Hall as [views Hviews].
  exists {| av_messages := views;
            av_thinking := isLoading st;
            av_input_value := inputMessage st;
            av_input_disabled := isLoading st;
            av_send_disabled :=
              isLoading st || negb (truthy (str (trim (inputMessage st)))) |}.
  split; [unfold render; rewrite Hviews; reflexivity|].
  apply mapM_Some_1 in Hviews. cbn [av_messages]. clear Hsound.
  induction Hviews as [|m mv ms mvs Hmv _ IH]; [split; reflexivity|].
  apply message_view_shows in Hmv as (Hk & Hc & _).
  destruct IH as [IHk IHc]. cbn [map]. rewrite Hk, Hc, IHk, IHc. split; reflexivity.
Qed.

(** X9: for a message whose steps is an array, its steps panel throws
    exactly when the panel is open and some entry is [null] or has an
    [action_type], [status] or [description] that React cannot draw (an
    object, or an array holding one); and one message whose panel throws
    makes the render of the whole widget throw. *)
Theorem unsound_step_breaks_open_panel
    (shown : gmap Z bool) (m : Message) (entries : list JSON) :
  steps m = arr entries ->
  (panel_view coerced_positive shown m = None <->
   shown !! id m = Some true /\
   Exists (fun e => e = JNull \/ child_ok (get e "action_type") = false \/
                    child_ok (get e "status") = false \/
                    child_ok (get e "description") = false) entries) /\
  (forall st : AppState,
      In m (messages st) ->
      panel_view coerced_positive (showSteps st) m = None ->
      render coerced_positive st = None).
Proof.
  intros Hsteps. split.
  - unfold panel_view. rewrite Hsteps, has_steps_arr.
    destruct (shown !! id m) as [[|]|].
    + destruct entries as [|e rest].
      * split; [discriminate|]. intros [_ Hex]. inversion Hex.
      * destruct (steps_view (arr (e :: rest))) eqn:Hv; cbn.
        -- split; [discriminate|]. intros [_ Hex].
           pose proof (proj2 (steps_view_None (e :: rest)) Hex). congruence.
        -- split; [|reflexivity]. intros _. split; [reflexivity|].
           exact (proj1 (steps_view_None (e :: rest)) Hv).
    + split; [discriminate|]. intros [[=] _].
    + split; [discriminate|]. intros [[=] _].
  - intros st Hin Hnone. unfold render.
    assert (Hm : mapM (message_view coerced_positive (showSteps st)) (messages st) = None).
    { apply mapM_None_2, Exists_exists. exists m.
      split; [apply list_elem_of_In; exact Hin|].
      apply message_view_without_panel. exact Hnone. }
    rewrite Hm. reflexivity.
Qed.

(** ** What the stored messages look like *)

Lemma react_bare (w : World) (e : Event) :
  Forall bare (messages (app w)) -> Forall bare (messages (app (react w e))).
Proof.
  intros Hall.
  destruct (react_appends w e)
    as [-> | [(now & ts & _ & _ & _ & ->) | (o & now & ts & _ & _ & ->)]];
    [exact Hall| |]; apply Forall_app; (split; [exact Hall|]);
    (constructor; [|constructor]).
  - split; [discriminate|]. intros _. repeat split. eexists. reflexivity.
  - destruct (try_block null_read_message o) as [data|message].
    + split; [discriminate|]. intros [Hr | He]; discriminate.
    + split; [reflexivity|]. intros _. repeat split. eexists. reflexivity.
Qed.

Lemma run_bare (t0 : Z) (events : list Event) :
  Forall bare (messages (app (run t0 events))).
Proof.
  induction events as [|e events IH] using rev_ind.
  - constructor; [|constructor]. split; [discriminate|].
    intros [Hr | He]; discriminate.
  - rewrite run_snoc. apply react_bare. exact IH.
Qed.

(** X10: in every reachable world a message that the user typed and an
    error bubble render without throwing, and show neither a token badge
    nor a steps button nor a steps panel; a message is drawn as an error
    bubble exactly when it is an error message, and as a user bubble
    exactly when its role is [user]. *)
Theorem own_messages_show_no_extras
    (t0 : Z) (events : list Event) (m : Message) :
  In m (messages (app (run t0 events))) ->
  (role m = "user" \/ isError m = true ->
   exists view,
     message_view coerced_positive (showSteps (app (run t0 events))) m = Some view /\
     mv_tokens view = Hidden VUndefined /\
     mv_toggle view = Hidden (VJson (JBool false)) /\
     is_shown (mv_panel view) = false) /\
  (bubble m = ErrorBubble <-> isError m = true) /\
  (bubble m = UserBubble <-> role m = "user").
Proof.
  intros Hin.
  pose proof (run_bare t0 events) as Hall. rewrite Forall_forall in Hall.
  destruct (Hall m) as [Herr Hown]; [apply list_elem_of_In; exact Hin|].
  split; [|split].
  - intros Hmine. destruct (Hown Hmine) as (Hs & Ht & _ & text & Hc).
    unfold message_view, children_draw, panel_view, toggle_view.
    rewrite Hs, Ht, Hc.
    destruct (showSteps (app (run t0 events)) !! id m) as [[|]|]; cbn;
      eexists; repeat split.
  - unfold bubble. split.
    + destruct (String.eqb (role m) "user"); [discriminate|].
      destruct (isError m); [reflexivity|discriminate].
    + intros He. rewrite (Herr He), He. reflexivity.
  - unfold bubble. destruct (String.eqb (role m) "user") eqn:Hr.
    + apply String.eqb_eq in Hr. split; [intros _; exact Hr|reflexivity].
    + apply String.eqb_neq in Hr.
      split; [destruct (isError m); discriminate|contradiction].
Qed.

(** X11: the token badge is rendered for a truthy [tokens_used] only; for
    a response that reports zero tokens the number 0 itself is handed to
    React in the badge's place, and nothing when the member is missing. *)
Theorem token_badge_needs_truthy_count
    (shown : gmap Z bool) (data : JSON) (now ts : Z) (view : MessageView) :
  message_view coerced_positive shown (assistantMessage data now ts) = Some view ->
  (forall n : Z,
      get data "tokens_used" = num n ->
      mv_tokens view = if (n =? 0)%Z then Hidden (num 0) else Shown (num n)) /\
  (get data "tokens_used" = VUndefined -> mv_tokens view = Hidden VUndefined).
Proof.
  intros Hv. apply message_view_shows in Hv as (_ & _ & _ & Ht & _).
  cbn [tokensUsed assistantMessage] in Ht. split.
  - intros n Hn. rewrite Ht, Hn. cbn.
    destruct (n =? 0)%Z eqn:Hz; cbn; [|reflexivity].
    apply Z.eqb_eq in Hz. subst n. reflexivity.
  - intros Hn. rewrite Ht, Hn. reflexivity.
Qed.

(** X12: in every reachable world the Thinking indicator is shown exactly
    while a request is in flight, and with it the input is disabled and
    the Send button too. *)
Theorem thinking_exactly_while_in_flight
    (t0 : Z) (events : list Event) (view : AppView) :
  render coerced_positive (app (run t0 events)) = Some view ->
  (av_thinking view = true <-> inflight (run t0 events) <> []) /\
  av_input_disabled view = av_thinking view /\
  (av_thinking view = true -> av_send_disabled view = true).
Proof.
  unfold render.
  destruct (mapM _ (messages (app (run t0 events)))) as [views|]; [|discriminate].
  cbn [mbind option_bind]. intros [= <-]. cbn [av_thinking av_input_disabled av_send_disabled].
  destruct (run_consistent null_read_message t0 events) as [Hfl _ _].
  split; [|split; [reflexivity|intros ->; reflexivity]].
  destruct (isLoading (app (run t0 events))); destruct (inflight (run t0 events));
    cbn in Hfl; try discriminate; split; congruence.
Qed.

(** ** What the server is sent *)

Lemma react_posts (w : World) (e : Event) :
  (sent (react w e) = sent w /\
   messages (app w) `prefix_of` messages (app (react w e))) \/
  (exists now ts req,
      send_blocked (app w) = false /\
      sent (react w e) = sent w ++ [req] /\
      messages (app (react w e)) = messages (app w) ++ [userMessage (app w) now ts] /\
      body req = request_body (messages (app w) ++ [userMessage (app w) now ts])).
Proof.
  assert (Hsend : forall now ts,
    (sent (issue w (sendMessage (app w) now ts)) = sent w /\
     messages (app w) `prefix_of` messages (app (issue w (sendMessage (app w) now ts)))) \/
    (exists req,
        send_blocked (app w) = false /\
        sent (issue w (sendMessage (app w) now ts)) = sent w ++ [req] /\
        messages (app (issue w (sendMessage (app w) now ts)))
        = messages (app w) ++ [userMessage (app w) now ts] /\
        body req = request_body (messages (app w) ++ [userMessage (app w) now ts]))).
  { intros now ts. unfold sendMessage.
    destruct (send_blocked (app w)); cbn; [left; split; reflexivity|].
    right. eexists. repeat split. }
  destruct e as [text|now ts|key shiftKey now ts|messageId|o now ts]; cbn.
  - left. split; reflexivity.
  - destruct (Hsend now ts) as [H | (req & H)]; [left; exact H|].
    right. exists now, ts, req. exact H.
  - unfold handleKeyPress.
    destruct (String.eqb key "Enter" && negb shiftKey); [|left; split; reflexivity].
    destruct (Hsend now ts) as [H | (req & H)]; [left; exact H|].
    right. exists now, ts, req. exact H.
  - left. split; reflexivity.
  - left. destruct (inflight w); [split; reflexivity|].
    cbn [Widget.app Widget.sent]. split; [reflexivity|].
    rewrite resume_messages. apply prefix_app_r. reflexivity.
Qed.

Lemma run_posted (t0 : Z) (events : list Event) (i : nat) (req : Request) :
  sent (run t0 events) !! i = Some req ->
  exists msgs,
    body req = request_body msgs /\
    msgs `prefix_of` messages (app (run t0 events)) /\
    length msgs = (2 * (i + 1))%nat.
Proof.
  revert i req. induction events as [|e events IH] using rev_ind; intros i req.
  - cbn. rewrite lookup_nil. discriminate.
  - rewrite run_snoc.
    destruct (react_posts (run t0 events) e)
      as [[-> Hpre] | (now & ts & req' & Hb & -> & Hm & Hbody)].
    + intros Hi. destruct (IH i req Hi) as (msgs & Hreq & Hp & Hlen).
      exists msgs. split; [exact Hreq|]. split; [|exact Hlen].
      etransitivity; eassumption.
    + rewrite Hm. intros Hi. apply lookup_app_Some in Hi as [Hi | [Hge Hi]].
      * destruct (IH i req Hi) as (msgs & Hreq & Hp & Hlen).
        exists msgs. split; [exact Hreq|]. split; [|exact Hlen].
        apply prefix_app_r. exact Hp.
      * apply list_lookup_singleton_Some in Hi as [Hi <-].
        exists (messages (app (run t0 events)) ++ [userMessage (app (run t0 events)) now ts]).
        split; [exact Hbody|]. split; [reflexivity|].
        pose proof (run_counts t0 events) as Hcount.
        destruct (run_consistent null_read_message t0 events) as [Hfl _ _].
        apply send_allowed in Hb as [_ Hidle]. rewrite Hidle in Hfl.
        rewrite length_app. cbn. lia.
Qed.

Lemma run_head (t0 : Z) (events : list Event) :
  exists tail, messages (app (run t0 events)) = first_message t0 :: tail.
Proof.
  induction events as [|e events [tail IH]] using rev_ind.
  - exists []. reflexivity.
  - rewrite run_snoc.
    destruct (react_appends (run t0 events) e)
      as [-> | [(now & ts & _ & _ & _ & ->) | (o & now & ts & _ & _ & ->)]];
      rewrite IH; eauto.
Qed.

(** X13: every request re-sends the whole conversation so far: the
    [messages] array of the request number [i] (counting from 0) has
    [2 * (i + 1)] elements, starts with the widget's own greeting as an
    assistant message, and is a prefix of the array of every later
    request. *)
Theorem history_is_resent_in_full
    (t0 : Z) (events : list Event) (i j : nat) (ri rj : Request) :
  sent (run t0 events) !! i = Some ri ->
  sent (run t0 events) !! j = Some rj ->
  (i <= j)%nat ->
  posted_messages ri `prefix_of` posted_messages rj /\
  length (posted_messages ri) = (2 * (i + 1))%nat /\
  head (posted_messages ri)
  = Some (JObj [("role", JStr "assistant"); ("content", JStr greeting)]).
Proof.
  intros Hi Hj Hle.
  destruct (run_posted t0 events i ri Hi) as (mi & Hbi & Hpi & Hli).
  destruct (run_posted t0 events j rj Hj) as (mj & Hbj & Hpj & Hlj).
  rewrite (posted_messages_carried _ _ Hbi), (posted_messages_carried _ _ Hbj).
  assert (Hpre : mi `prefix_of` mj).
  { destruct (prefix_weak_total mi mj _ Hpi Hpj) as [H | H]; [exact H|].
    apply prefix_length_eq in H; [subst; reflexivity|lia]. }
  split; [|split].
  - destruct Hpre as [k ->]. rewrite map_app. apply prefix_app_r. reflexivity.
  - rewrite length_map. exact Hli.
  - destruct (run_head t0 events) as [tail Hhead]. rewrite Hhead in Hpi.
    destruct mi as [|m rest]; [cbn in Hli; lia|].
    apply prefix_cons_inv_1 in Hpi. subst m. reflexivity.
Qed.

(** X15: what the server says in a response that is not [ok] is never
    shown: whatever the status code and the body, the widget stores the
    same error bubble, with the fixed text [Failed to get response]. *)
Theorem error_response_body_is_discarded
    (st : AppState) (s1 s2 : Z) (b1 b2 : Body) (now ts : Z) :
  response_ok s1 = false -> response_ok s2 = false ->
  resume st (Responded s1 b1) now ts = resume st (Responded s2 b2) now ts /\
  last (messages (resume st (Responded s1 b1) now ts))
  = Some (errorMessage "Failed to get response" now ts).
Proof.
  intros H1 H2. unfold sendMessage_resume, try_block. rewrite H1, H2. cbn.
  split; [reflexivity|apply last_snoc].
Qed.

End WidgetConduct.

Section WidgetConductExamples.
Import Js Widget.

Local Abbreviation run := (Widget.run v8_null_read).
Local Abbreviation asked :=
  [EvChange "What is 2+2?"; EvClick 10 10].
Local Abbreviation answered :=
  [EvChange "What is 2+2?"; EvClick 10 10;
   EvSettle (Responded 200 (Parsed four)) 20 20].

Lemma toggleSteps_leaves_other_messages_witness :
  let st := app (run 0 answered) in
  let m := assistantMessage four 20 20 in
  id m <> 1%Z /\
  message_view never_positive (showSteps (toggleSteps st 1)) m
  = message_view never_positive (showSteps st) m.
Proof.
  assert (H : id (assistantMessage four 20 20) <> 1%Z) by discriminate.
  split; [exact H|].
  exact (toggleSteps_leaves_other_messages never_positive (app (run 0 answered)) 1
           (assistantMessage four 20 20) H).
Defined.

Lemma send_button_agrees_with_guard_witness :
  let st := app (run 0 [EvChange "What is 2+2?"]) in
  exists view,
    render never_positive st = Some view /\
    av_send_disabled view = send_blocked st /\
    send_blocked st = false.
Proof.
  eexists.
  assert (H : render never_positive (app (run 0 [EvChange "What is 2+2?"])) = Some _)
    by reflexivity.
  split; [exact H|]. split; [|reflexivity].
  exact (proj1 (send_button_agrees_with_guard never_positive _ _ H)).
Defined.

Lemma ids_distinct_when_spaced_witness :
  spaced 1 answered /\ NoDup (map id (messages (app (run 0 answered)))).
Proof.
  assert (H : spaced 1 answered) by (cbn; repeat split; lia).
  split; [exact H|].
  exact (ids_distinct_when_spaced v8_null_read 0 answered H).
Defined.

Lemma ids_collide_one_millisecond_apart_witness :
  inflight (run 0 asked) <> [] /\ trim "And 3+3?" <> "" /\
  exists answer typed,
    messages (app (Widget.react v8_null_read
                     (Widget.react v8_null_read
                        (Widget.react v8_null_read (run 0 asked)
                           (EvSettle (Responded 200 (Parsed four)) 20 20))
                        (EvChange "And 3+3?"))
                     (EvClick 21 21)))
    = messages (app (run 0 asked)) ++ [answer; typed] /\
    id answer = id typed.
Proof.
  assert (H1 : inflight (run 0 asked) <> []) by discriminate.
  assert (H2 : trim "And 3+3?" <> "") by discriminate.
  split; [exact H1|]. split; [exact H2|].
  destruct (ids_collide_one_millisecond_apart v8_null_read (run 0 asked)
              (Responded 200 (Parsed four)) 20 20 21 "And 3+3?" H1 H2)
    as (answer & typed & Hm & _ & _ & _ & Hid).
  exists answer, typed. split; [exact Hm|exact Hid].
Defined.

Lemma render_succeeds_on_sound_steps_witness :
  let st := app (run 0 (answered ++ [EvToggle 21])) in
  (forall m : Message,
      In m (messages st) ->
      child_ok (content m) = true /\ child_ok (tokensUsed m) = true /\
      exists entries,
        steps m = arr entries /\
        (showSteps st !! id m = Some true -> Forall sound_entry entries)) /\
  exists view,
    render never_positive st = Some view /\
    map mv_key (av_messages view) = [1; 10; 21]%Z.
Proof.
  assert (H : forall m : Message,
    In m (messages (app (run 0 (answered ++ [EvToggle 21])))) ->
    child_ok (content m) = true /\ child_ok (tokensUsed m) = true /\
    exists entries,
      steps m = arr entries /\
      (showSteps (app (run 0 (answered ++ [EvToggle 21]))) !! id m = Some true ->
       Forall sound_entry entries)).
  { intros m Hin. cbn in Hin.
    destruct Hin as [<- | [<- | [<- | []]]];
      (split; [reflexivity|]); (split; [reflexivity|]).
    - exists []. split; [reflexivity|]. intros _. constructor.
    - exists []. split; [reflexivity|]. intros _. constructor.
    - exists two_steps. split; [reflexivity|]. intros _.
      repeat (constructor; [repeat split; discriminate|]). constructor. }
  split; [exact H|].
  destruct (render_succeeds_on_sound_steps never_positive _ H) as (view & Hr & Hk & _).
  exists view. split; [exact Hr|exact Hk].
Defined.

Lemma unsound_step_breaks_open_panel_witness :
  let m := assistantMessage
             (JObj [("response", JStr "ok");
                    ("steps", JArr [JObj [("action_type", JObj [("name", JStr "plan")])]])])
             20 20 in
  steps m = arr [JObj [("action_type", JObj [("name", JStr "plan")])]] /\
  panel_view never_positive {[ 21%Z := true ]} m = None.
Proof.
  assert (H : steps (assistantMessage
                       (JObj [("response", JStr "ok");
                              ("steps", JArr [JObj [("action_type",
                                                     JObj [("name", JStr "plan")])]])])
                       20 20)
              = arr [JObj [("action_type", JObj [("name", JStr "plan")])]])
    by reflexivity.
  split; [exact H|].
  apply (proj1 (unsound_step_breaks_open_panel never_positive {[ 21%Z := true ]} _ _ H)).
  split; [reflexivity|]. constructor. right. left. reflexivity.
Defined.

Lemma own_messages_show_no_extras_witness :
  let failed := [EvChange "What is 2+2?"; EvClick 10 10;
                 EvSettle (Rejected "Failed to fetch") 20 20] in
  let m := errorMessage "Failed to fetch" 20 20 in
  In m (messages (app (run 0 failed))) /\
  exists view,
    message_view never_positive (showSteps (app (run 0 failed))) m = Some view /\
    mv_toggle view = Hidden (VJson (JBool false)).
Proof.
  assert (H : In (errorMessage "Failed to fetch" 20 20)
                 (messages (app (run 0 [EvChange "What is 2+2?"; EvClick 10 10;
                                        EvSettle (Rejected "Failed to fetch") 20 20]))))
    by (right; right; left; reflexivity).
  split; [exact H|].
  destruct (proj1 (own_messages_show_no_extras v8_null_read never_positive 0 _ _ H)
              (or_intror eq_refl)) as (view & Hv & _ & Ht & _).
  exists view. split; [exact Hv|exact Ht].
Defined.

Lemma token_badge_needs_truthy_count_witness :
  let data := JObj [("response", JStr "ok"); ("tokens_used", JNum 0)] in
  exists view,
    message_view never_positive ∅ (assistantMessage data 20 20) = Some view /\
    mv_tokens view = Hidden (num 0).
Proof.
  eexists.
  assert (H : message_view never_positive ∅
                (assistantMessage (JObj [("response", JStr "ok");
                                         ("tokens_used", JNum 0)]) 20 20) = Some _)
    by reflexivity.
  split; [exact H|].
  exact (proj1 (token_badge_needs_truthy_count never_positive _ _ _ _ _ H) 0%Z eq_refl).
Defined.

Lemma thinking_exactly_while_in_flight_witness :
  exists view,
    render never_positive (app (run 0 asked)) = Some view /\
    av_thinking view = true /\ inflight (run 0 asked) <> [].
Proof.
  eexists.
  assert (H : render never_positive (app (run 0 asked)) = Some _) by reflexivity.
  split; [exact H|]. split; [reflexivity|].
  apply (proj1 (thinking_exactly_while_in_flight v8_null_read never_positive 0 asked _ H)).
  reflexivity.
Defined.

Lemma history_is_resent_in_full_witness :
  let twice := answered ++ [EvChange "And 3+3?"; EvClick 30 30] in
  exists ri rj,
    sent (run 0 twice) !! 0%nat = Some ri /\
    sent (run 0 twice) !! 1%nat = Some rj /\
    (0 <= 1)%nat /\
    posted_messages ri `prefix_of` posted_messages rj /\
    length (posted_messages ri) = 2%nat.
Proof.
  eexists. eexists.
  assert (H0 : sent (run 0 (answered ++ [EvChange "And 3+3?"; EvClick 30 30])) !! 0%nat
               = Some _) by reflexivity.
  assert (H1 : sent (run 0 (answered ++ [EvChange "And 3+3?"; EvClick 30 30])) !! 1%nat
               = Some _) by reflexivity.
  assert (Hle : (0 <= 1)%nat) by lia.
  split; [exact H0|]. split; [exact H1|]. split; [exact Hle|].
  destruct (history_is_resent_in_full v8_null_read 0 _ 0 1 _ _ H0 H1 Hle)
    as (Hp & Hl & _).
  split; [exact Hp|exact Hl].
Defined.

Lemma error_response_body_is_discarded_witness :
  response_ok 500 = false /\ response_ok 404 = false /\
  sendMessage_resume v8_null_read (app (run 0 asked))
    (Responded 500 (Parsed (JObj [("detail", JStr "boom")]))) 20 20
  = sendMessage_resume v8_null_read (app (run 0 asked))
      (Responded 404 (Unparseable "Unexpected token")) 20 20.
Proof.
  assert (H1 : response_ok 500 = false) by reflexivity.
  assert (H2 : response_ok 404 = false) by reflexivity.
  split; [exact H1|]. split; [exact H2|].
  exact (proj1 (error_response_body_is_discarded v8_null_read _ 500 404 _ _ 20 20 H1 H2)).
Defined.

End WidgetConductExamples.
